(** * Open-Meteo client (module_1_meteo_api.py): a shallow embedding

    The Python module fetches daily weather series over HTTP with a retry
    loop, validates the shape of the JSON answer, aggregates the series per
    calendar month and plots them.  This development embeds the module
    function by function and proves the behaviour its specification states.

    Conventions of the embedding.
    - Python [int] is [Z]; Python [float] is idealised as an exact rational
      [Q] (no rounding, no NaN other than the missing value of a table cell).
    - A Python exception is a value of [exn]; a call that may raise returns
      a [result].
    - The outside world is a script [world]: the outcome of the k-th call of
      [requests.get], counted over the whole run.  Effects (requests, sleeps,
      console lines, the saved figure) are appended to a trace that is
      threaded through the effectful functions together with the number of
      requests issued so far.
    - The retry loop of [fetch_api_data] need not terminate, so it carries a
      bound on the number of loop iterations; [OutOfFuel] says that the bound
      was reached with the loop still running. *)

From Stdlib Require Import ZArith QArith Qminmax Qreduction.
From Stdlib Require Import String Ascii List Bool Lia DecimalString.
Import ListNotations.

Local Open Scope string_scope.
Local Open Scope Z_scope.

(* ------------------------------------------------------------------ *)
(** ** Python values, exceptions and builtins *)

Module Py.

(** The HTTP-level exceptions of the [requests] package.  All of them are
    subclasses of [requests.exceptions.RequestException]. *)
Inductive request_error : Type :=
| ConnectionError
| Timeout
| TooManyRedirects
| HTTPError (status_code : Z)
| JSONDecodeError.

(** The exceptions that occur in the module.  All are subclasses of
    [Exception]. *)
Inductive exn : Type :=
| RequestException (e : request_error)
| ValueError (msg : string)
| TypeError (msg : string)
| KeyError (key : string)
| Exception (msg : string).

(** [isinstance(e, requests.exceptions.RequestException)] *)
Definition is_request_exception (e : exn) : bool :=
  match e with
  | RequestException _ => true
  | _ => false
  end.

Inductive result (A : Type) : Type :=
| Ok (a : A)
| Raise (e : exn).
Arguments Ok {A} a.
Arguments Raise {A} e.

(** JSON documents as [response.json()] returns them: a [dict] is kept as
    an association list, looked up from the front. *)
#[local] Set Warnings "-register-all".
Inductive json : Type :=
| JNull
| JBool (b : bool)
| JNum (q : Q)
| JStr (s : string)
| JList (l : list json)
| JDict (d : list (string * json)).

Fixpoint dict_get {A : Type} (d : list (string * A)) (key : string) : option A :=
  match d with
  | [] => None
  | (k, v) :: rest => if String.eqb k key then Some v else dict_get rest key
  end.

Definition dict_keys {A : Type} (d : list (string * A)) : list string :=
  map fst d.

Definition dict_has {A : Type} (d : list (string * A)) (key : string) : bool :=
  match dict_get d key with
  | Some _ => true
  | None => false
  end.

(** [needle in haystack] for two strings: substring test. *)
Fixpoint is_substring (needle haystack : string) : bool :=
  String.prefix needle haystack ||
  match haystack with
  | EmptyString => false
  | String _ rest => is_substring needle rest
  end.

Definition json_is_str (key : string) (v : json) : bool :=
  match v with
  | JStr s => String.eqb s key
  | _ => false
  end.

(** [key in container] for a string [key]. *)
Definition py_in (key : string) (container : json) : result bool :=
  match container with
  | JDict d => Ok (dict_has d key)
  | JList l => Ok (existsb (json_is_str key) l)
  | JStr s => Ok (is_substring key s)
  | JNull => Raise (TypeError "argument of type 'NoneType' is not iterable")
  | JBool _ => Raise (TypeError "argument of type 'bool' is not iterable")
  | JNum _ => Raise (TypeError "argument of type 'float' is not iterable")
  end.

(** [container[key]] for a string [key]. *)
Definition py_getitem (container : json) (key : string) : result json :=
  match container with
  | JDict d =>
      match dict_get d key with
      | Some v => Ok v
      | None => Raise (KeyError key)
      end
  | JList _ => Raise (TypeError "list indices must be integers or slices, not str")
  | JStr _ => Raise (TypeError "string indices must be integers, not 'str'")
  | JNull => Raise (TypeError "'NoneType' object is not subscriptable")
  | JBool _ => Raise (TypeError "'bool' object is not subscriptable")
  | JNum _ => Raise (TypeError "'float' object is not subscriptable")
  end.

(** [str(n)] for an integer. *)
Definition str_of_int (n : Z) : string :=
  NilZero.string_of_int (Z.to_int n).

(** [sep.join(items)] *)
Fixpoint join (sep : string) (items : list string) : string :=
  match items with
  | [] => ""
  | [x] => x
  | x :: rest => x ++ sep ++ join sep rest
  end.

(** *** [int(s)] for a string

    Surrounding white space is dropped, one sign is accepted, and the rest
    must be decimal digits, where single underscores may separate digits. *)

Definition is_space (c : ascii) : bool :=
  let n := nat_of_ascii c in
  (((9 <=? n) && (n <=? 13)) || ((28 <=? n) && (n <=? 32))
   || (n =? 133) || (n =? 160))%nat.

Definition digit_val (c : ascii) : option Z :=
  let n := nat_of_ascii c in
  if ((48 <=? n) && (n <=? 57))%nat then Some (Z.of_nat n - 48) else None.

Fixpoint lstrip (s : list ascii) : list ascii :=
  match s with
  | c :: rest => if is_space c then lstrip rest else s
  | [] => []
  end.

Definition strip (s : list ascii) : list ascii :=
  rev (lstrip (rev (lstrip s))).

Fixpoint digits_acc (s : list ascii) (acc : Z) (after_digit : bool) : option Z :=
  match s with
  | [] => if after_digit then Some acc else None
  | c :: rest =>
      match digit_val c with
      | Some d => digits_acc rest (10 * acc + d) true
      | None =>
          if Ascii.eqb c "_"%char && after_digit
          then digits_acc rest acc false
          else None
      end
  end.

Definition int_of_str (s : string) : option Z :=
  match strip (list_ascii_of_string s) with
  | [] => None
  | c :: rest =>
      if Ascii.eqb c "-"%char then option_map Z.opp (digits_acc rest 0 false)
      else if Ascii.eqb c "+"%char then digits_acc rest 0 false
      else digits_acc (c :: rest) 0 false
  end.

Definition py_int (s : string) : result Z :=
  match int_of_str s with
  | Some n => Ok n
  | None =>
      Raise (ValueError ("invalid literal for int() with base 10: '" ++ s ++ "'"))
  end.

(** [time.sleep(d)] refuses a negative duration; otherwise the process
    sleeps [d] seconds. *)
Definition sleep_allowed (d : Q) : bool := Qle_bool 0 d.

End Py.
Export Py.

(* ------------------------------------------------------------------ *)
(** ** The [requests] package, as far as the module uses it *)

Module Requests.

Record response : Type := mkResponse {
  status_code : Z;
  (** [headers.get("Retry-After")]: the header's text, if it was sent *)
  retry_after_header : option string;
  (** what [response.json()] does: the parsed body, or the exception *)
  json_body : result json
}.

(** What one call of [requests.get] does. *)
Inductive http_outcome : Type :=
| GetRaises (e : exn)
| GetReturns (r : response).

(** [response.raise_for_status()]: an [HTTPError] for a client or server
    error status, and nothing for any other status. *)
Definition raise_for_status (r : response) : result unit :=
  if (400 <=? status_code r) && (status_code r <? 600)
  then Raise (RequestException (HTTPError (status_code r)))
  else Ok tt.

End Requests.
Export Requests.

(* ------------------------------------------------------------------ *)
(** ** The [pandas] package, as far as the module uses it

    Modelled domain: a column is built from a JSON array; a time stamp is a
    string [YYYY-MM-DD] naming a day of the calendar; a cell of a numeric
    column is a number or [null], which becomes the missing value NaN
    ([None] here).  Outside this domain the model raises, where pandas may
    also coerce or broadcast. *)

Module Pandas.

Record date : Type := mkDate { year : Z; month : Z; day : Z }.

Definition is_leap (y : Z) : bool :=
  ((y mod 4 =? 0) && negb (y mod 100 =? 0)) || (y mod 400 =? 0).

Definition days_in_month (y m : Z) : Z :=
  if m =? 2 then (if is_leap y then 29 else 28)
  else if (m =? 4) || (m =? 6) || (m =? 9) || (m =? 11) then 30
  else 31.

Definition digits_val (cs : list ascii) : option Z :=
  digits_acc cs 0 false.

Definition all_digits (cs : list ascii) : bool :=
  forallb (fun c => match digit_val c with Some _ => true | None => false end) cs.

Definition parse_date (s : string) : option date :=
  match list_ascii_of_string s with
  | [y1; y2; y3; y4; s1; m1; m2; s2; d1; d2] =>
      if Ascii.eqb s1 "-"%char && Ascii.eqb s2 "-"%char
         && all_digits [y1; y2; y3; y4; m1; m2; d1; d2]
      then
        match digits_val [y1; y2; y3; y4], digits_val [m1; m2], digits_val [d1; d2] with
        | Some y, Some m, Some d =>
            if (1 <=? m) && (m <=? 12) && (1 <=? d) && (d <=? days_in_month y m)
            then Some (mkDate y m d)
            else None
        | _, _, _ => None
        end
      else None
  | _ => None
  end.

(** [pd.to_datetime] on a column of strings. *)
Fixpoint to_datetime (col : list json) : result (list date) :=
  match col with
  | [] => Ok []
  | JStr s :: rest =>
      match parse_date s with
      | None => Raise (ValueError ("Unknown datetime string format, unable to parse: " ++ s))
      | Some d =>
          match to_datetime rest with
          | Ok ds => Ok (d :: ds)
          | Raise e => Raise e
          end
      end
  | _ :: _ => Raise (TypeError "<class 'object'> is not convertible to datetime")
  end.

(** The cells of a numeric column. *)
Fixpoint numeric (col : list json) : result (list (option Q)) :=
  match col with
  | [] => Ok []
  | c :: rest =>
      match
        match c with
        | JNum q => Some (Some q)
        | JNull => Some None
        | _ => None
        end
      with
      | None => Raise (TypeError "agg function failed [how->mean,dtype->object]")
      | Some cell =>
          match numeric rest with
          | Ok cells => Ok (cell :: cells)
          | Raise e => Raise e
          end
      end
  end.

(** [pd.DataFrame({...})] of four columns: the arrays must have one length. *)
Definition as_array (v : json) : result (list json) :=
  match v with
  | JList l => Ok l
  | _ => Raise (ValueError "If using all scalar values, you must pass an index")
  end.

Definition same_length (a b c d : list json) : bool :=
  (length a =? length b)%nat && (length a =? length c)%nat
  && (length a =? length d)%nat.

(** *** Resampling to month ends *)

(** Months are counted from year 0. *)
Definition month_index (d : date) : Z := year d * 12 + (month d - 1).

Definition month_end (m : Z) : date :=
  let y := m / 12 in
  let mo := m mod 12 + 1 in
  mkDate y mo (days_in_month y mo).

(** All the months from the first to the last one of the index, also those
    without a row. *)
Definition bins (index : list date) : list Z :=
  match map month_index index with
  | [] => []
  | m :: ms =>
      let lo := fold_right Z.min m ms in
      let hi := fold_right Z.max m ms in
      map (fun i => lo + Z.of_nat i) (seq 0 (Z.to_nat (hi - lo + 1)))
  end.

(** The cells of month [m] that are not missing. *)
Fixpoint bucket (m : Z) (index : list date) (col : list (option Q)) : list Q :=
  match index, col with
  | d :: index, cell :: col =>
      match cell with
      | Some q => if month_index d =? m then q :: bucket m index col
                  else bucket m index col
      | None => bucket m index col
      end
  | _, _ => []
  end.

Definition Qsum (l : list Q) : Q := fold_right Qplus 0%Q l.

(** The reducers; the missing values are skipped.  Results are kept in
    lowest terms. *)
Definition series_mean (l : list Q) : option Q :=
  match l with
  | [] => None
  | _ => Some (Qred (Qsum l / inject_Z (Z.of_nat (length l))))
  end.

Definition series_sum (l : list Q) : option Q := Some (Qred (Qsum l)).

Definition series_max (l : list Q) : option Q :=
  match l with
  | [] => None
  | q :: rest => Some (Qred (fold_right Qmax q rest))
  end.

(** [series.resample('ME').agg()]: one value per month end. *)
Definition resample_ME (agg : list Q -> option Q)
  (index : list date) (col : list (option Q)) : list (date * option Q) :=
  map (fun m => (month_end m, agg (bucket m index col))) (bins index).

(** [pd.concat(frames)] *)
Definition concat {row : Type} (frames : list (list row)) : result (list row) :=
  match frames with
  | [] => Raise (ValueError "No objects to concatenate")
  | _ => Ok (List.concat frames)
  end.

(** [series.unique()]: the distinct values in order of first appearance. *)
Fixpoint unique (l : list string) : list string :=
  match l with
  | [] => []
  | x :: rest => x :: filter (fun y => negb (String.eqb x y)) (unique rest)
  end.

End Pandas.
Export Pandas.

(* ------------------------------------------------------------------ *)
(** ** Effects: the script of the world and the trace of a run *)

Module Effects.

(** The console lines of the module, before formatting. *)
Inductive log_line : Type :=
| RateLimited (retry_after : Z)
| RequestFailed (e : exn)
| RetryingIn (sleep_time : Q)
| FetchingCity (city : string)
| ErrorProcessing (city : string) (e : exn)
| PlotSaved.

Inductive event : Type :=
| HttpGet (url : string) (params : json)
| Sleep (seconds : Q)
| Print (line : log_line)
| PlotLine (panel : string) (city : string) (points : list (date * option Q))
| Savefig (file : string).

(** The outcome of the k-th call of [requests.get] of the run. *)
Definition world : Type := nat -> http_outcome.

Record state : Type := mkState {
  calls : nat;          (* requests issued so far *)
  trace : list event    (* effects so far, oldest first *)
}.

Definition initial : state := mkState 0 [].

Definition emit (e : event) (st : state) : state :=
  mkState (calls st) (trace st ++ [e]).

Definition emits (es : list event) (st : state) : state :=
  mkState (calls st) (trace st ++ es).

(** How a run of an effectful function ends. *)
Inductive res (A : Type) : Type :=
| Return (a : A)
| Raises (e : exn)
| OutOfFuel.
Arguments Return {A} a.
Arguments Raises {A} e.
Arguments OutOfFuel {A}.


Definition is_get (e : event) : bool :=
  match e with HttpGet _ _ => true | _ => false end.

Definition requests_of (t : list event) : nat :=
  List.length (filter is_get t).

Definition is_savefig (e : event) : bool :=
  match e with Savefig _ => true | _ => false end.

End Effects.
Export Effects.

(* ------------------------------------------------------------------ *)
(** ** The module *)

Module MeteoApi.

Definition API_URL : string := "https://archive-api.open-meteo.com/v1/archive?".

Definition COORDINATES : list (string * list (string * Q)) :=
  [ ("Madrid", [("latitude", 40416775 # 1000000); ("longitude", - (3703790 # 1000000))]);
    ("London", [("latitude", 51507351 # 1000000); ("longitude", - (127758 # 1000000))]);
    ("Rio", [("latitude", - (22906847 # 1000000)); ("longitude", - (43172896 # 1000000))]) ]%Q.

Definition VARIABLES : list string :=
  ["temperature_2m_mean"; "precipitation_sum"; "wind_speed_10m_max"].

(** *** fetch_api_data *)

Section Fetch.

Variable w : world.
Variables (url : string) (params : json).
Variables (max_retries : Z) (backoff_factor : Q).

(** How one pass through the [try] block ends: by [return], by falling
    out of the block with a new value of [retries], or by an exception. *)
Inductive attempt : Type :=
| Returned (body : json)
| FellThrough (retries : Z)
| Raised (e : exn).

(** [int(response.headers.get("Retry-After", 10))] *)
Definition retry_after_of (response : response) : result Z :=
  match retry_after_header response with
  | Some text => py_int text
  | None => Ok 10
  end.

(** The [try] block, entered with the outcome of [requests.get]. *)
Definition try_block (o : http_outcome) (retries : Z) (st : state)
  : state * attempt :=
  match o with
  | GetRaises e => (st, Raised e)
  | GetReturns response =>
      if status_code response =? 200 then
        match json_body response with
        | Ok body => (st, Returned body)
        | Raise e => (st, Raised e)
        end
      else if status_code response =? 429 then
        match retry_after_of response with
        | Raise e => (st, Raised e)
        | Ok retry_after =>
            let st := emit (Print (RateLimited retry_after)) st in
            let d := (inject_Z retry_after * backoff_factor)%Q in
            if sleep_allowed d
            then (emit (Sleep d) st, FellThrough (retries + 1))
            else (st, Raised (ValueError "sleep length must be non-negative"))
        end
      else
        match raise_for_status response with
        | Raise e => (st, Raised e)
        | Ok _ => (st, FellThrough retries)
        end
  end.

(** The [except requests.exceptions.RequestException as e] clause. *)
Definition except_clause (e : exn) (retries : Z) (st : state)
  : state * attempt :=
  let st := emit (Print (RequestFailed e)) st in
  let retries := retries + 1 in
  if retries <? max_retries then
    let sleep_time := (backoff_factor * inject_Z (2 ^ retries))%Q in
    let st := emit (Print (RetryingIn sleep_time)) st in
    if sleep_allowed sleep_time
    then (emit (Sleep sleep_time) st, FellThrough retries)
    else (st, Raised (ValueError "sleep length must be non-negative"))
  else
    (st, Raised (Exception ("Max retries (" ++ str_of_int max_retries ++ ") exceeded."))).

(** One iteration of the [while] loop: the request, the [try] block, and
    the [except] clause when the block raised a [RequestException]. *)
Definition iteration (retries : Z) (st : state) : state * attempt :=
  let o := w (calls st) in
  let st := mkState (S (calls st)) (trace st ++ [HttpGet url params]) in
  match try_block o retries st with
  | (st, Raised e) =>
      if is_request_exception e then except_clause e retries st
      else (st, Raised e)
  | other => other
  end.

(** The [while retries < max_retries] loop and the [raise] after it. *)
Fixpoint fetch_loop (fuel : nat) (retries : Z) (st : state) : state * res json :=
  if retries <? max_retries then
    match fuel with
    | O => (st, OutOfFuel)
    | S fuel =>
        match iteration retries st with
        | (st, Returned body) => (st, Return body)
        | (st, Raised e) => (st, Raises e)
        | (st, FellThrough retries) => fetch_loop fuel retries st
        end
    end
  else
    (st, Raises (Exception ("API request failed after " ++ str_of_int max_retries
                            ++ " retries."))).

Definition fetch_api_data (fuel : nat) (st : state) : state * res json :=
  fetch_loop fuel 0 st.

End Fetch.

(** *** validate_response_schema *)

Definition required_keys : list string :=
  ["daily"; "daily_units"; "latitude"; "longitude"; "generationtime_ms"].

Definition required_vars : list string := VARIABLES ++ ["time"].

Definition missing_key (key : string) : exn :=
  ValueError ("Invalid API response: missing key " ++ key).

Definition missing_variable (var : string) : exn :=
  ValueError ("Invalid API response: missing variable " ++ var ++ " in daily data").

(** [for key in keys: if key not in container: raise error(key)] *)
Fixpoint require_all (error : string -> exn) (keys : list string) (container : json)
  : result unit :=
  match keys with
  | [] => Ok tt
  | key :: keys =>
      match py_in key container with
      | Raise e => Raise e
      | Ok false => Raise (error key)
      | Ok true => require_all error keys container
      end
  end.

Definition validate_response_schema (response : json) : result unit :=
  match require_all missing_key required_keys response with
  | Raise e => Raise e
  | Ok _ =>
      match py_getitem response "daily" with
      | Raise e => Raise e
      | Ok daily => require_all missing_variable required_vars daily
      end
  end.

(** *** get_data_meteo_api *)

Definition start_date : string := "2010-01-01".
Definition end_date : string := "2020-12-31".

Definition coord (coords : list (string * Q)) (key : string) : result json :=
  match dict_get coords key with
  | Some q => Ok (JNum q)
  | None => Raise (KeyError key)
  end.

Definition get_data_meteo_api (w : world) (fuel : nat) (city : string) (st : state)
  : state * res json :=
  match dict_get COORDINATES city with
  | None | Some [] =>
      (st, Raises (ValueError ("City " ++ city ++ " not found in COORDINATES")))
  | Some coords =>
      match coord coords "latitude", coord coords "longitude" with
      | Raise e, _ => (st, Raises e)
      | Ok _, Raise e => (st, Raises e)
      | Ok latitude, Ok longitude =>
          let params :=
            JDict [ ("latitude", latitude); ("longitude", longitude);
                    ("start_date", JStr start_date); ("end_date", JStr end_date);
                    ("daily", JStr (join "," VARIABLES)) ] in
          match fetch_api_data w API_URL params 3 1 fuel st with
          | (st, Return response) =>
              match validate_response_schema response with
              | Raise e => (st, Raises e)
              | Ok _ => (st, Return response)
              end
          | other => other
          end
      end
  end.

(** *** process_daily_data *)

Module MonthlyTable.
Record row : Type := mkRow {
  time : date;                (* the index: the month end *)
  temperature : option Q;
  precipitation : option Q;
  wind_speed : option Q;
  city : string
}.
End MonthlyTable.

Definition bind {A B : Type} (r : result A) (k : A -> result B) : result B :=
  match r with
  | Ok a => k a
  | Raise e => Raise e
  end.

Notation "x <- r ;; k" := (bind r (fun x => k))
  (at level 61, r at next level, right associativity).

(** The monthly table from its three columns, which carry one index. *)
Fixpoint monthly_rows (temperature precipitation wind_speed : list (date * option Q))
  (city : string) : list MonthlyTable.row :=
  match temperature, precipitation, wind_speed with
  | (t, a) :: temperature, (_, b) :: precipitation, (_, c) :: wind_speed =>
      MonthlyTable.mkRow t a b c city
      :: monthly_rows temperature precipitation wind_speed city
  | _, _, _ => []
  end.

Definition process_daily_data (response : json) (city : string)
  : result (list MonthlyTable.row) :=
  daily_data <- py_getitem response "daily" ;;
  time <- py_getitem daily_data "time" ;;
  temperature <- py_getitem daily_data "temperature_2m_mean" ;;
  precipitation <- py_getitem daily_data "precipitation_sum" ;;
  wind_speed <- py_getitem daily_data "wind_speed_10m_max" ;;
  time <- as_array time ;;
  temperature <- as_array temperature ;;
  precipitation <- as_array precipitation ;;
  wind_speed <- as_array wind_speed ;;
  if negb (same_length time temperature precipitation wind_speed)
  then Raise (ValueError "All arrays must be of the same length")
  else
    index <- to_datetime time ;;
    temperature <- numeric temperature ;;
    let monthly_temperature := resample_ME series_mean index temperature in
    precipitation <- numeric precipitation ;;
    let monthly_precipitation := resample_ME series_sum index precipitation in
    wind_speed <- numeric wind_speed ;;
    let monthly_wind_speed := resample_ME series_max index wind_speed in
    Ok (monthly_rows monthly_temperature monthly_precipitation monthly_wind_speed city).

(** *** plot_combined_data *)

Definition variables : list (string * (MonthlyTable.row -> option Q)) :=
  [ ("temperature", MonthlyTable.temperature);
    ("precipitation", MonthlyTable.precipitation);
    ("wind_speed", MonthlyTable.wind_speed) ].

Definition plot_lines (combined_df : list MonthlyTable.row) : list event :=
  flat_map (fun var =>
    map (fun city =>
      let city_data :=
        filter (fun r => String.eqb (MonthlyTable.city r) city) combined_df in
      PlotLine (fst var) city
        (map (fun r => (MonthlyTable.time r, snd var r)) city_data))
      (unique (map MonthlyTable.city combined_df)))
    variables.

Definition plot_combined_data (combined_df : list MonthlyTable.row) (st : state)
  : state :=
  emits (plot_lines combined_df ++ [Savefig "weather_evolution.png"; Print PlotSaved]) st.

(** *** main *)

Section Driver.

Variable w : world.
Variable fuel : nat.

(** The body of the [try] of the city loop. *)
Definition city_pipeline (city : string) (st : state)
  : state * res (list MonthlyTable.row) :=
  match get_data_meteo_api w fuel city st with
  | (st, Return response) =>
      match process_daily_data response city with
      | Ok processed_df => (st, Return processed_df)
      | Raise e => (st, Raises e)
      end
  | (st, Raises e) => (st, Raises e)
  | (st, OutOfFuel) => (st, OutOfFuel)
  end.

(** [for city in cities: ...], with [all_data] as built so far. *)
Fixpoint city_loop (cities : list string) (all_data : list (list MonthlyTable.row))
  (st : state) : state * res (list (list MonthlyTable.row)) :=
  match cities with
  | [] => (st, Return all_data)
  | city :: cities =>
      let st := emit (Print (FetchingCity city)) st in
      match city_pipeline city st with
      | (st, Return processed_df) =>
          city_loop cities (all_data ++ [processed_df]) st
      | (st, Raises e) =>
          city_loop cities all_data (emit (Print (ErrorProcessing city e)) st)
      | (st, OutOfFuel) => (st, OutOfFuel)
      end
  end.

Definition main (st : state) : state * res unit :=
  let cities := dict_keys COORDINATES in
  match city_loop cities [] st with
  | (st, Return all_data) =>
      match concat all_data with
      | Raise e => (st, Raises e)
      | Ok combined_df => (plot_combined_data combined_df st, Return tt)
      end
  | (st, Raises e) => (st, Raises e)
  | (st, OutOfFuel) => (st, OutOfFuel)
  end.

End Driver.

End MeteoApi.
Export MeteoApi.

(* ------------------------------------------------------------------ *)
(** ** Scripts of the world and sample data used in the statements *)

Module Scenarios.

(** The answer of the archive for two days of January 2010. *)
Definition madrid_daily : list (string * json) :=
  [ ("time", JList [JStr "2010-01-01"; JStr "2010-01-02"]);
    ("temperature_2m_mean", JList [JNum 10; JNum 12]);
    ("precipitation_sum", JList [JNum 5; JNum 0]);
    ("wind_speed_10m_max", JList [JNum 3; JNum 4]) ].

Definition madrid_fields : list (string * json) :=
  [ ("latitude", JNum (40416775 # 1000000));
    ("longitude", JNum (- (3703790 # 1000000)));
    ("generationtime_ms", JNum 1);
    ("daily", JDict madrid_daily);
    ("daily_units", JDict []) ].

Definition madrid_response : json := JDict madrid_fields.

(** A complete response whose arrays are empty, and a response that lacks
    [longitude] and [daily_units]. *)
Definition valid_daily : list (string * json) :=
  [ ("time", JList []); ("temperature_2m_mean", JList []);
    ("precipitation_sum", JList []); ("wind_speed_10m_max", JList []) ].

Definition valid_response : list (string * json) :=
  [ ("latitude", JNum (40416775 # 1000000));
    ("longitude", JNum (- (3703790 # 1000000)));
    ("generationtime_ms", JNum 1);
    ("daily", JDict valid_daily);
    ("daily_units", JDict []) ].

Definition invalid_response : list (string * json) :=
  [ ("latitude", JNum (40416775 # 1000000));
    ("generationtime_ms", JNum 1);
    ("daily", JDict []) ].

(** A response of which only the status matters: no [Retry-After] header
    and a body that is not JSON. *)
Definition status_only (code : Z) : http_outcome :=
  GetReturns (mkResponse code None (Raise (RequestException JSONDecodeError))).

Definition ok_200 (body : json) : http_outcome :=
  GetReturns (mkResponse 200 None (Ok body)).

Definition too_many_requests (header : option string) : http_outcome :=
  GetReturns (mkResponse 429 header (Raise (RequestException JSONDecodeError))).

(** The world that answers with [os], one after the other, and with [rest]
    ever after. *)
Definition script (os : list http_outcome) (rest : http_outcome) : world :=
  fun k => nth k os rest.

Definition always (o : http_outcome) : world := fun _ => o.

End Scenarios.
Export Scenarios.

(** The state after the request of an iteration and the events [es] that
    followed it. *)
Definition after_request (url : string) (params : json) (es : list event)
  (st : state) : state :=
  mkState (S (calls st)) (trace st ++ HttpGet url params :: es).




(** A status for which the [try] block does nothing at all. *)
Definition silent_status (code : Z) : bool :=
  negb (code =? 200) && negb (code =? 429)
  && negb ((400 <=? code) && (code <? 600)).

(** The run of the driver in which no city yields a table. *)
Fixpoint every_city_fails (w : world) (fuel : nat) (cities : list string)
  (st : state) : bool :=
  match cities with
  | [] => true
  | city :: cities =>
      match city_pipeline w fuel city (emit (Print (FetchingCity city)) st) with
      | (st, Raises e) =>
          every_city_fails w fuel cities (emit (Print (ErrorProcessing city e)) st)
      | _ => false
      end
  end.

(** The trace of [st'] continues the trace of [st] and saves no figure in
    between. *)
Definition no_figure_since (st st' : state) : Prop :=
  exists t, trace st' = (trace st ++ t)%list /\ existsb is_savefig t = false.

(** The events that a call of [fetch_api_data] for [url] and [params] may
    add to the trace: its requests, its sleeps, and its three console
    lines. *)
Definition fetch_event (url : string) (params : json) (e : event) : Prop :=
  match e with
  | HttpGet u p => u = url /\ p = params
  | Sleep d => (0 <= d)%Q
  | Print (RateLimited _) | Print (RequestFailed _) | Print (RetryingIn _) => True
  | _ => False
  end.

(** The trace of [st'] continues the trace of [st] by events of the retry
    loop, and the requests among them are the requests counted. *)
Definition fetched_since (url : string) (params : json) (st st' : state) : Prop :=
  exists t,
    trace st' = (trace st ++ t)%list /\
    Forall (fetch_event url params) t /\
    calls st' = (calls st + requests_of t)%nat.


(** The order in which [process_daily_data] reads the arrays of [daily]. *)
Definition daily_columns : list string :=
  ["time"; "temperature_2m_mean"; "precipitation_sum"; "wind_speed_10m_max"].

(** The query of [get_data_meteo_api] for a place. *)
Definition query_params (latitude longitude : Q) : json :=
  JDict [ ("latitude", JNum latitude); ("longitude", JNum longitude);
          ("start_date", JStr "2010-01-01"); ("end_date", JStr "2020-12-31");
          ("daily", JStr "temperature_2m_mean,precipitation_sum,wind_speed_10m_max") ].

(** The points drawn in one panel of the figure. *)
Definition plotted_points (panel : string) (es : list event)
  : list (date * option Q) :=
  flat_map (fun e => match e with
                     | PlotLine p _ points => if String.eqb p panel then points else []
                     | _ => []
                     end) es.

(** The lines drawn in one panel of the figure, by city. *)
Definition plotted_cities (panel : string) (es : list event) : list string :=
  flat_map (fun e => match e with
                     | PlotLine p city _ => if String.eqb p panel then [city] else []
                     | _ => []
                     end) es.

(* ------------------------------------------------------------------ *)
(** ** The retry loop, step by step *)

Local Open Scope list_scope.

Section LoopFacts.

Variable w : world.
Variables (url : string) (params : json).
Variables (max_retries : Z) (backoff_factor : Q).

Abbreviation loop := (fetch_loop w url params max_retries backoff_factor).
Abbreviation iter := (iteration w url params max_retries backoff_factor).

Lemma emit_after_request (es : list event) (e : event) (st : state) :
  emit e (after_request url params es st) = after_request url params (es ++ [e]) st.
Proof.
  unfold emit, after_request; simpl.
  now rewrite <- app_assoc.
Qed.


Lemma loop_enter (fuel : nat) (retries : Z) (st : state) :
  retries < max_retries ->
  loop (S fuel) retries st =
  match iter retries st with
  | (st, Returned body) => (st, Return body)
  | (st, Raised e) => (st, Raises e)
  | (st, FellThrough retries) => loop fuel retries st
  end.
Proof.
  intros H. simpl.
  apply Z.ltb_lt in H. now rewrite H.
Qed.

Lemma loop_exit (fuel : nat) (retries : Z) (st : state) :
  max_retries <= retries ->
  loop fuel retries st =
  (st, Raises (Exception ("API request failed after " ++ str_of_int max_retries
                          ++ " retries."))).
Proof.
  intros H. apply Z.ltb_ge in H.
  destruct fuel; simpl; now rewrite H.
Qed.







(** An iteration on a status that the [try] block ignores. *)
Lemma iteration_silent (r : response) (retries : Z) (st : state) :
  w (calls st) = GetReturns r ->
  silent_status (status_code r) = true ->
  iter retries st = (after_request url params [] st, FellThrough retries).
Proof.
  intros Hw Hs. unfold iteration, try_block, raise_for_status. rewrite Hw.
  unfold silent_status in Hs.
  apply andb_prop in Hs as [Hs Herr]. apply andb_prop in Hs as [H200 H429].
  apply negb_true_iff in H200, H429, Herr.
  now rewrite H200, H429, Herr.
Qed.

End LoopFacts.

Section Runs.

Variable w : world.
Variables (url : string) (params : json).
Variables (max_retries : Z) (backoff_factor : Q).

Abbreviation run_loop := (fetch_loop w url params max_retries backoff_factor).

Lemma requests_of_app (t u : list event) :
  requests_of (t ++ u) = (requests_of t + requests_of u)%nat.
Proof.
  unfold requests_of. now rewrite filter_app, length_app.
Qed.





(** An iteration that falls through has either added one to the counter or
    met a silent status. *)
Lemma iteration_fell_through (retries retries' : Z) (st st' : state) :
  iteration w url params max_retries backoff_factor retries st
  = (st', FellThrough retries') ->
  retries' = retries + 1 \/
  exists r, w (calls st) = GetReturns r /\ silent_status (status_code r) = true.
Proof.
  unfold iteration, try_block, except_clause, raise_for_status, silent_status.
  destruct (w (calls st)) as [e|r].
  - destruct (is_request_exception e); [|discriminate].
    cbv zeta. destruct (retries + 1 <? max_retries); [|discriminate].
    destruct (sleep_allowed _); [|discriminate].
    intros [= _ <-]. now left.
  - destruct (status_code r =? 200) eqn:E200.
    + destruct (json_body r) as [b|e]; [discriminate|].
      destruct (is_request_exception e); [|discriminate].
      cbv zeta. destruct (retries + 1 <? max_retries); [|discriminate].
      destruct (sleep_allowed _); [|discriminate].
      intros [= _ <-]. now left.
    + destruct (status_code r =? 429) eqn:E429.
      * destruct (retry_after_of r) as [n|e].
        -- cbv zeta. destruct (sleep_allowed _); [|discriminate].
           intros [= _ <-]. now left.
        -- destruct (is_request_exception e); [|discriminate].
           cbv zeta. destruct (retries + 1 <? max_retries); [|discriminate].
           destruct (sleep_allowed _); [|discriminate].
           intros [= _ <-]. now left.
      * destruct ((400 <=? status_code r) && (status_code r <? 600)) eqn:Eerr.
        -- cbn [is_request_exception].
           cbv zeta. destruct (retries + 1 <? max_retries); [|discriminate].
           destruct (sleep_allowed _); [|discriminate].
           intros [= _ <-]. now left.
        -- intros [= _ <-]. right. exists r.
           split; [reflexivity | now rewrite E200, E429, Eerr].
Qed.

(** Without silent statuses the loop stops within [max_retries - retries]
    iterations, whatever the world answers. *)
Lemma fetch_loop_terminates (fuel : nat) :
  (forall k r, w k = GetReturns r -> silent_status (status_code r) = false) ->
  forall (retries : Z) (st : state),
    max_retries - retries <= Z.of_nat fuel ->
    snd (run_loop fuel retries st) <> OutOfFuel.
Proof.
  intros Hw. induction fuel as [|fuel IH]; intros retries st Hfuel.
  - rewrite loop_exit by lia. discriminate.
  - destruct (Z.le_gt_cases max_retries retries) as [Hge|Hlt].
    + rewrite loop_exit by lia. discriminate.
    + rewrite loop_enter by lia.
      destruct (iteration w url params max_retries backoff_factor retries st)
        as [st' [body|retries'|e]] eqn:Hit; try discriminate.
      destruct (iteration_fell_through _ _ _ _ Hit) as [->|(r & Hr & Hs)].
      * apply IH. lia.
      * rewrite (Hw _ _ Hr) in Hs. discriminate.
Qed.

End Runs.

(* ------------------------------------------------------------------ *)
(** ** The fetcher *)

(** C8.  When the first request of a call of [fetch_api_data] is answered
    with status 200 (and the body parses), the call returns the parsed body
    at once: the trace gains the one request and nothing else, so there is
    no sleep and no second request. *)
Theorem C8_first_200_returns_body
  (w : world) (url : string) (params : json) (max_retries : Z)
  (backoff_factor : Q) (fuel : nat) (st : state) (r : response) (body : json) :
  w (calls st) = GetReturns r ->
  status_code r = 200 ->
  json_body r = Ok body ->
  0 < max_retries ->
  fetch_api_data w url params max_retries backoff_factor (S fuel) st
  = (after_request url params [] st, Return body).
Proof.
  intros Hw Hs Hb Hmax.
  unfold fetch_api_data. rewrite loop_enter by lia.
  unfold iteration, try_block. rewrite Hw, Hs, Hb. reflexivity.
Qed.

Lemma C8_witness :
  fetch_api_data (always (ok_200 madrid_response)) API_URL JNull 3 1 1 initial
  = (after_request API_URL JNull [] initial, Return madrid_response).
Proof.
  apply (C8_first_200_returns_body (always (ok_200 madrid_response))
           API_URL JNull 3 1 0 initial
           (mkResponse 200 None (Ok madrid_response)) madrid_response);
    [reflexivity | reflexivity | reflexivity | lia].
Defined.

(** C10.  A 429 answer whose [Retry-After] header is present but is not
    the text of an integer makes [int] raise a [ValueError].  It is no
    [RequestException], so the [except] clause does not take it: it leaves
    [fetch_api_data] as it is, neither retried nor turned into the
    max-retries failure, and the trace of the attempt holds the request
    alone: no sleep and no console line. *)
Theorem C10_unparsable_retry_after_escapes
  (w : world) (url : string) (params : json) (max_retries : Z)
  (backoff_factor : Q) (fuel : nat) (retries : Z) (st : state)
  (r : response) (text : string) :
  w (calls st) = GetReturns r ->
  status_code r = 429 ->
  retry_after_header r = Some text ->
  int_of_str text = None ->
  retries < max_retries ->
  let e := ValueError ("invalid literal for int() with base 10: '" ++ text ++ "'") in
  fetch_loop w url params max_retries backoff_factor (S fuel) retries st
  = (after_request url params [] st, Raises e)
  /\ is_request_exception e = false
  /\ (retries = 0 ->
      fetch_api_data w url params max_retries backoff_factor (S fuel) st
      = (after_request url params [] st, Raises e)).
Proof.
  intros Hw Hs Hh Hint Hlt e.
  assert (Hloop : fetch_loop w url params max_retries backoff_factor (S fuel) retries st
                  = (after_request url params [] st, Raises e)).
  { rewrite loop_enter by lia.
    unfold iteration, try_block, retry_after_of, py_int.
    rewrite Hw, Hs, Hh, Hint. reflexivity. }
  split; [exact Hloop|]. split; [reflexivity|].
  intros ->. exact Hloop.
Qed.

Lemma C10_witness :
  fetch_api_data
    (always (too_many_requests (Some "Wed, 21 Oct 2015 07:28:00 GMT")))
    API_URL JNull 3 1 1 initial
  = (after_request API_URL JNull [] initial,
     Raises (ValueError "invalid literal for int() with base 10: 'Wed, 21 Oct 2015 07:28:00 GMT'")).
Proof.
  apply (C10_unparsable_retry_after_escapes
           (always (too_many_requests (Some "Wed, 21 Oct 2015 07:28:00 GMT")))
           API_URL JNull 3 1 0 0 initial
           (mkResponse 429 (Some "Wed, 21 Oct 2015 07:28:00 GMT")
              (Raise (RequestException JSONDecodeError)))
           "Wed, 21 Oct 2015 07:28:00 GMT");
    [reflexivity | reflexivity | reflexivity | reflexivity | lia | reflexivity].
Defined.








(** C9, on an input where the loop does not stop.  A status that is not
    200, not 429 and not an error status (204, 304, ...) leaves the [try]
    block without [return], without an exception and without a change of
    [retries]: in a world that answers with such statuses only, a call with
    a positive [max_retries] issues request after request, without a sleep,
    and is still in the loop after any number of iterations. *)
Theorem C9_loop_runs_forever_on_silent_status
  (w : world) (url : string) (params : json) (max_retries : Z)
  (backoff_factor : Q) :
  0 < max_retries ->
  (forall k, exists r, w k = GetReturns r /\ silent_status (status_code r) = true) ->
  forall (fuel : nat) (st : state),
    fetch_api_data w url params max_retries backoff_factor fuel st
    = (mkState (calls st + fuel) (trace st ++ repeat (HttpGet url params) fuel),
       OutOfFuel).
Proof.
  intros Hmax Hw fuel. unfold fetch_api_data.
  induction fuel as [|fuel IH]; intros st.
  - simpl. replace (0 <? max_retries) with true by (symmetry; now apply Z.ltb_lt).
    rewrite Nat.add_0_r, app_nil_r. now destruct st.
  - rewrite loop_enter by lia.
    destruct (Hw (calls st)) as (r & Hr & Hs).
    rewrite (iteration_silent _ _ _ _ _ r 0 st Hr Hs).
    rewrite IH. cbn [after_request calls trace].
    replace (S (calls st) + fuel)%nat with (calls st + S fuel)%nat by lia.
    now rewrite <- app_assoc.
Qed.

Lemma C9_witness :
  fetch_api_data (always (status_only 204)) API_URL JNull 3 1 5 initial
  = (mkState 5 (repeat (HttpGet API_URL JNull) 5), OutOfFuel).
Proof.
  apply (C9_loop_runs_forever_on_silent_status
           (always (status_only 204)) API_URL JNull 3 1 ltac:(lia)).
  intros k. eexists. split; reflexivity.
Defined.

(* ------------------------------------------------------------------ *)
(** ** The validator *)

Section RequireAll.

Variable error : string -> exn.

Lemma require_all_ok_iff (keys : list string) (container : json) :
  require_all error keys container = Ok tt <->
  Forall (fun key => py_in key container = Ok true) keys.
Proof.
  induction keys as [|key keys IH]; simpl.
  - split; [constructor | reflexivity].
  - destruct (py_in key container) as [[|]|e] eqn:Hin.
    + rewrite IH. split.
      * intros H. now constructor.
      * intros H. now inversion H.
    + split; [discriminate|]. intros H. inversion H. congruence.
    + split; [discriminate|]. intros H. inversion H. congruence.
Qed.

Lemma require_all_dict_ok_iff (keys : list string) (d : list (string * json)) :
  require_all error keys (JDict d) = Ok tt <->
  Forall (fun key => dict_has d key = true) keys.
Proof.
  rewrite require_all_ok_iff.
  split; intros H; induction H; constructor; auto.
  - simpl in H. now injection H.
  - simpl. now f_equal.
Qed.

(** The loop stops at the first key that is absent. *)
Lemma require_all_first_missing (before after : list string) (key : string)
  (d : list (string * json)) :
  Forall (fun k => dict_has d k = true) before ->
  dict_has d key = false ->
  require_all error (before ++ key :: after) (JDict d) = Raise (error key).
Proof.
  intros Hb Hk. induction Hb as [|k before Hk' _ IH]; simpl.
  - now rewrite Hk.
  - now rewrite Hk'.
Qed.

(** Only the presence of the keys is looked at. *)
Lemma require_all_same_keys (keys : list string) (d d' : list (string * json)) :
  (forall k, dict_has d k = dict_has d' k) ->
  require_all error keys (JDict d) = require_all error keys (JDict d').
Proof.
  intros H. induction keys as [|key keys IH]; simpl; [reflexivity|].
  rewrite <- H. now destruct (dict_has d key).
Qed.

End RequireAll.

Lemma dict_has_get {A : Type} (d : list (string * A)) (key : string) :
  dict_has d key = true <-> exists v, dict_get d key = Some v.
Proof.
  unfold dict_has. destruct (dict_get d key) as [v|].
  - split; [eauto | reflexivity].
  - split; [discriminate | intros [v H]; discriminate].
Qed.

(** C4.  For a response that is a mapping [d]:
    - validation succeeds exactly when the five top-level keys are present
      and the value under [daily] contains the three variables and [time]
      (for a mapping under [daily]: has them as keys);
    - when a top-level key is absent, the error names the first absent one
      in the order of [required_keys]; when all five are present and a name
      is absent from the mapping under [daily], the error names the first
      absent one in the order of [required_vars];
    - the verdict depends on the presence of keys alone: two responses
      with the same keys, and the same keys under [daily], get the same
      verdict whatever the values are, so neither types nor array lengths
      are looked at.
    The function reads the response and assigns to nothing; the embedding is
    a function from the response to the verdict. *)
Theorem C4_validation_checks_key_presence (d : list (string * json)) :
  (validate_response_schema (JDict d) = Ok tt <->
   Forall (fun key => dict_has d key = true) required_keys /\
   exists daily, dict_get d "daily" = Some daily /\
                 Forall (fun var => py_in var daily = Ok true) required_vars)
  /\
  (forall daily : list (string * json),
      dict_get d "daily" = Some (JDict daily) ->
      (validate_response_schema (JDict d) = Ok tt <->
       Forall (fun key => dict_has d key = true)
         ["daily"; "daily_units"; "latitude"; "longitude"; "generationtime_ms"] /\
       Forall (fun var => dict_has daily var = true)
         ["temperature_2m_mean"; "precipitation_sum"; "wind_speed_10m_max"; "time"]))
  /\
  (forall (before after : list string) (key : string),
      required_keys = before ++ key :: after ->
      Forall (fun k => dict_has d k = true) before ->
      dict_has d key = false ->
      validate_response_schema (JDict d)
      = Raise (ValueError ("Invalid API response: missing key " ++ key)))
  /\
  (forall (daily : list (string * json)) (before after : list string) (var : string),
      Forall (fun key => dict_has d key = true) required_keys ->
      dict_get d "daily" = Some (JDict daily) ->
      required_vars = before ++ var :: after ->
      Forall (fun v => dict_has daily v = true) before ->
      dict_has daily var = false ->
      validate_response_schema (JDict d)
      = Raise (ValueError ("Invalid API response: missing variable " ++ var
                           ++ " in daily data")))
  /\
  (forall d' daily daily' : list (string * json),
      (forall k, dict_has d k = dict_has d' k) ->
      dict_get d "daily" = Some (JDict daily) ->
      dict_get d' "daily" = Some (JDict daily') ->
      (forall k, dict_has daily k = dict_has daily' k) ->
      validate_response_schema (JDict d) = validate_response_schema (JDict d')).
Proof.
  assert (Hgen : validate_response_schema (JDict d) = Ok tt <->
     Forall (fun key => dict_has d key = true) required_keys /\
     exists daily, dict_get d "daily" = Some daily /\
                   Forall (fun var => py_in var daily = Ok true) required_vars).
  { unfold validate_response_schema.
    destruct (require_all missing_key required_keys (JDict d)) as [[]|e] eqn:Hk.
    - apply require_all_dict_ok_iff in Hk.
      assert (Hd : dict_has d "daily" = true) by (inversion Hk; assumption).
      apply dict_has_get in Hd as [daily Hd].
      cbn [py_getitem]. rewrite Hd. rewrite require_all_ok_iff.
      split.
      + intros H. split; [exact Hk|]. now exists daily.
      + intros [_ (daily' & Hd' & H)].
        assert (daily' = daily) by congruence. now subst daily'.
    - split; [discriminate|].
      intros [H _]. apply (require_all_dict_ok_iff missing_key) in H. congruence. }
  split; [exact Hgen|]. split; [|split; [|split]].
  - intros daily Hd. rewrite Hgen. change required_keys
      with ["daily"; "daily_units"; "latitude"; "longitude"; "generationtime_ms"].
    split.
    + intros [Hk (daily' & Hd' & Hv)]. split; [exact Hk|].
      assert (daily' = JDict daily) by congruence. subst daily'.
      apply (require_all_dict_ok_iff missing_variable).
      now apply require_all_ok_iff.
    + intros [Hk Hv]. split; [exact Hk|]. exists (JDict daily). split; [exact Hd|].
      apply (require_all_ok_iff missing_variable).
      now apply require_all_dict_ok_iff.
  - intros before after key Heq Hb Hk.
    unfold validate_response_schema. rewrite Heq.
    now rewrite (require_all_first_missing missing_key before after key d Hb Hk).
  - intros daily before after var Hk Hd Heq Hb Hv.
    unfold validate_response_schema.
    apply (require_all_dict_ok_iff missing_key) in Hk. rewrite Hk.
    cbn [py_getitem]. rewrite Hd, Heq.
    now rewrite (require_all_first_missing missing_variable before after var daily Hb Hv).
  - intros d' daily daily' Hsame Hd Hd' Hsame'.
    unfold validate_response_schema.
    rewrite (require_all_same_keys missing_key required_keys d d' Hsame).
    destruct (require_all missing_key required_keys (JDict d')); [|reflexivity].
    cbn [py_getitem]. rewrite Hd, Hd'.
    apply require_all_same_keys. exact Hsame'.
Qed.

Lemma C4_witness :
  validate_response_schema (JDict valid_response) = Ok tt /\
  validate_response_schema (JDict invalid_response)
  = Raise (ValueError "Invalid API response: missing key daily_units").
Proof.
  split.
  - apply (proj2 (proj1 (proj2 (C4_validation_checks_key_presence valid_response))
                    valid_daily eq_refl)).
    split; repeat constructor.
  - apply (proj1 (proj2 (proj2 (C4_validation_checks_key_presence invalid_response)))
             ["daily"] ["latitude"; "longitude"; "generationtime_ms"] "daily_units");
      [reflexivity | repeat constructor | reflexivity].
Defined.

(* ------------------------------------------------------------------ *)
(** ** The aggregator *)






Lemma parse_date_month (s : string) (d : date) :
  parse_date s = Some d -> 1 <= month d <= 12.
Proof.
  unfold parse_date.
  repeat match goal with
         | |- context [match ?l with [] => _ | _ :: _ => _ end] =>
             destruct l; try discriminate
         end.
  match goal with |- context [if ?c then _ else _] => destruct c end;
    [|discriminate].
  repeat match goal with
         | |- context [match digits_val ?l with Some _ => _ | None => _ end] =>
             destruct (digits_val l); try discriminate
         end.
  match goal with |- context [if ?c then _ else _] => destruct c eqn:E end;
    [|discriminate].
  intros [= <-]. cbn [month].
  repeat (apply andb_prop in E; destruct E as [E ?]).
  split; [apply Z.leb_le | apply Z.leb_le]; assumption.
Qed.




(* ------------------------------------------------------------------ *)
(** ** The accessor *)

(** C6.  For a city that is not in [COORDINATES], [get_data_meteo_api]
    raises the unknown-city error and leaves the state of the world as it
    found it: no request is counted and the trace is unchanged, so
    [requests.get] was not called. *)
Theorem C6_unknown_city_fails_without_request
  (w : world) (fuel : nat) (city : string) (st : state) :
  dict_get COORDINATES city = None ->
  get_data_meteo_api w fuel city st
  = (st, Raises (ValueError ("City " ++ city ++ " not found in COORDINATES"))).
Proof.
  intros H. unfold get_data_meteo_api. now rewrite H.
Qed.

Lemma C6_witness :
  get_data_meteo_api (always (ok_200 madrid_response)) 3 "Paris" initial
  = (initial, Raises (ValueError "City Paris not found in COORDINATES")).
Proof.
  apply (C6_unknown_city_fails_without_request
           (always (ok_200 madrid_response)) 3 "Paris" initial eq_refl).
Defined.

(* ------------------------------------------------------------------ *)
(** ** The driver *)

Lemma no_figure_refl (st : state) : no_figure_since st st.
Proof.
  exists []. now rewrite app_nil_r.
Qed.

Lemma no_figure_trans (st1 st2 st3 : state) :
  no_figure_since st1 st2 -> no_figure_since st2 st3 -> no_figure_since st1 st3.
Proof.
  intros (t & Ht & Hq) (u & Hu & Hr). exists (t ++ u). split.
  - now rewrite Hu, Ht, app_assoc.
  - rewrite existsb_app, Hq, Hr. reflexivity.
Qed.

Lemma no_figure_emit (e : event) (st : state) :
  is_savefig e = false -> no_figure_since st (emit e st).
Proof.
  intros H. exists [e]. split; [reflexivity|]. cbn. now rewrite H.
Qed.

Create HintDb figure.
#[local] Hint Resolve no_figure_refl no_figure_emit : figure.

Ltac figure_steps :=
  repeat (eapply no_figure_trans; [|apply no_figure_emit; reflexivity]);
  auto with figure.

Section FetchSavesNothing.

Variable w : world.
Variables (url : string) (params : json).
Variables (max_retries : Z) (backoff_factor : Q).

Lemma except_clause_no_figure (e : exn) (retries : Z) (st : state) :
  no_figure_since st (fst (except_clause max_retries backoff_factor e retries st)).
Proof.
  unfold except_clause. cbv zeta.
  destruct (retries + 1 <? max_retries); [|cbn [fst]; figure_steps].
  destruct (sleep_allowed _); cbn [fst]; figure_steps.
Qed.

Lemma try_block_no_figure (o : http_outcome) (retries : Z) (st : state) :
  no_figure_since st (fst (try_block backoff_factor o retries st)).
Proof.
  unfold try_block, raise_for_status. destruct o as [e|r]; [apply no_figure_refl|].
  destruct (status_code r =? 200).
  - destruct (json_body r); apply no_figure_refl.
  - destruct (status_code r =? 429).
    + destruct (retry_after_of r) as [n|e]; [|apply no_figure_refl].
      cbv zeta. destruct (sleep_allowed _); cbn [fst]; figure_steps.
    + destruct ((400 <=? status_code r) && (status_code r <? 600));
        apply no_figure_refl.
Qed.

Lemma iteration_no_figure (retries : Z) (st : state) :
  no_figure_since st
    (fst (iteration w url params max_retries backoff_factor retries st)).
Proof.
  unfold iteration.
  set (st1 := mkState (S (calls st)) (trace st ++ [HttpGet url params])).
  assert (H1 : no_figure_since st st1)
    by (exists [HttpGet url params]; now split).
  pose proof (try_block_no_figure (w (calls st)) retries st1) as H2.
  destruct (try_block backoff_factor (w (calls st)) retries st1)
    as [st2 [body|retries'|e]]; cbn [fst] in *;
    try (eapply no_figure_trans; eassumption).
  destruct (is_request_exception e); cbn [fst].
  - eapply no_figure_trans; [eapply no_figure_trans; eassumption|].
    apply except_clause_no_figure.
  - eapply no_figure_trans; eassumption.
Qed.

Lemma fetch_loop_no_figure (fuel : nat) :
  forall (retries : Z) (st : state),
    no_figure_since st
      (fst (fetch_loop w url params max_retries backoff_factor fuel retries st)).
Proof.
  induction fuel as [|fuel IH]; intros retries st; cbn [fetch_loop];
    destruct (retries <? max_retries); try apply no_figure_refl.
  pose proof (iteration_no_figure retries st) as H.
  destruct (iteration w url params max_retries backoff_factor retries st)
    as [st1 [body|retries'|e]]; cbn [fst] in *; try exact H.
  eapply no_figure_trans; [exact H | apply IH].
Qed.

End FetchSavesNothing.

Section DriverFacts.

Variable w : world.
Variable fuel : nat.

Lemma get_data_no_figure (city : string) (st : state) :
  no_figure_since st (fst (get_data_meteo_api w fuel city st)).
Proof.
  unfold get_data_meteo_api.
  destruct (dict_get COORDINATES city) as [[|c coords]|]; try apply no_figure_refl.
  destruct (coord (c :: coords) "latitude"); [|apply no_figure_refl].
  destruct (coord (c :: coords) "longitude"); [|apply no_figure_refl].
  cbv zeta. unfold fetch_api_data.
  match goal with
  | |- context [fetch_loop ?a ?b ?c ?d ?e ?f ?g ?h] =>
      pose proof (fetch_loop_no_figure a b c d e f g h) as H;
      destruct (fetch_loop a b c d e f g h) as [st1 [response| |]]
  end; cbn [fst] in *; try exact H.
  destruct (validate_response_schema response); exact H.
Qed.

Lemma city_pipeline_no_figure (city : string) (st : state) :
  no_figure_since st (fst (city_pipeline w fuel city st)).
Proof.
  unfold city_pipeline.
  pose proof (get_data_no_figure city st) as H.
  destruct (get_data_meteo_api w fuel city st) as [st1 [response|e|]];
    cbn [fst] in *; try exact H.
  destruct (process_daily_data response city); exact H.
Qed.


Lemma city_loop_succeeded (city : string) (cities : list string)
  (all_data : list (list MonthlyTable.row)) (st st' : state)
  (processed_df : list MonthlyTable.row) :
  city_pipeline w fuel city (emit (Print (FetchingCity city)) st)
  = (st', Return processed_df) ->
  city_loop w fuel (city :: cities) all_data st
  = city_loop w fuel cities (all_data ++ [processed_df]) st'.
Proof.
  intros H. cbn [city_loop]. cbv zeta. now rewrite H.
Qed.


(** When no city yields a table the loop ends with what it started with,
    and has saved no figure. *)
Lemma city_loop_all_failed (cities : list string) :
  forall (all_data : list (list MonthlyTable.row)) (st : state),
    every_city_fails w fuel cities st = true ->
    exists st',
      city_loop w fuel cities all_data st = (st', Return all_data) /\
      no_figure_since st st'.
Proof.
  induction cities as [|city cities IH]; intros all_data st H.
  - exists st. split; [reflexivity | apply no_figure_refl].
  - cbn [every_city_fails] in H. cbn [city_loop]. cbv zeta.
    pose proof (city_pipeline_no_figure city (emit (Print (FetchingCity city)) st))
      as Hp.
    destruct (city_pipeline w fuel city (emit (Print (FetchingCity city)) st))
      as [st1 [df|e|]]; try discriminate.
    cbn [fst] in Hp.
    destruct (IH all_data _ H) as (st' & Hloop & Hrest).
    exists st'. split; [exact Hloop|].
    apply (no_figure_trans _ _ _ (no_figure_emit (Print (FetchingCity city)) st eq_refl)).
    apply (no_figure_trans _ _ _ Hp).
    apply (no_figure_trans _ _ _
             (no_figure_emit (Print (ErrorProcessing city e)) st1 eq_refl)).
    exact Hrest.
Qed.

End DriverFacts.



(* ------------------------------------------------------------------ *)
(** ** More on the fetcher *)

Section FetchInvariants.

Variable w : world.
Variables (url : string) (params : json).
Variables (max_retries : Z) (backoff_factor : Q).

Lemma sleep_allowed_nonneg (d : Q) : sleep_allowed d = true -> (0 <= d)%Q.
Proof.
  unfold sleep_allowed. apply Qle_bool_iff.
Qed.

(** The ways out of the [except] clause. *)
Lemma except_clause_cases (e : exn) (retries : Z) (st : state) :
  exists es a,
    except_clause max_retries backoff_factor e retries (after_request url params [] st)
    = (after_request url params es st, a) /\
    Forall (fetch_event url params) es /\
    requests_of es = 0%nat /\
    match a with
    | Returned _ => False
    | FellThrough retries' => retries' = retries + 1
    | Raised e' => is_request_exception e' = false
    end.
Proof.
  unfold except_clause. cbv zeta.
  destruct (retries + 1 <? max_retries).
  - destruct (sleep_allowed _) eqn:Hs; rewrite !emit_after_request;
      eexists _, _; (split; [reflexivity|]);
      (split; [repeat constructor; now apply sleep_allowed_nonneg|]);
      split; reflexivity.
  - rewrite !emit_after_request.
    eexists _, _. split; [reflexivity|].
    split; [repeat constructor|]. split; reflexivity.
Qed.

(** The ways out of one iteration of the loop. *)
Lemma iteration_cases (retries : Z) (st : state) :
  exists es a,
    iteration w url params max_retries backoff_factor retries st
    = (after_request url params es st, a) /\
    Forall (fetch_event url params) es /\
    requests_of es = 0%nat /\
    match a with
    | Returned body =>
        es = [] /\
        exists r, w (calls st) = GetReturns r /\ status_code r = 200 /\
                  json_body r = Ok body
    | FellThrough retries' =>
        retries' = retries + 1 \/
        (retries' = retries /\ es = [] /\
         exists r, w (calls st) = GetReturns r /\
                   silent_status (status_code r) = true)
    | Raised e => is_request_exception e = false
    end.
Proof.
  assert (Hexc : forall e,
    exists es a,
      except_clause max_retries backoff_factor e retries (after_request url params [] st)
      = (after_request url params es st, a) /\
      Forall (fetch_event url params) es /\
      requests_of es = 0%nat /\
      match a with
      | Returned body =>
          es = [] /\
          exists r, w (calls st) = GetReturns r /\ status_code r = 200 /\
                    json_body r = Ok body
      | FellThrough retries' =>
          retries' = retries + 1 \/
          (retries' = retries /\ es = [] /\
           exists r, w (calls st) = GetReturns r /\
                     silent_status (status_code r) = true)
      | Raised e => is_request_exception e = false
      end).
  { intros e.
    destruct (except_clause_cases e retries st) as (es & a & Hrun & Hev & Hreq & Ha).
    exists es, a. repeat split; try assumption.
    destruct a; [contradiction | now left | exact Ha]. }
  assert (Hnone : forall a,
    match a with
    | Returned body =>
        exists r, w (calls st) = GetReturns r /\ status_code r = 200 /\
                  json_body r = Ok body
    | FellThrough retries' =>
        exists r, retries' = retries /\ w (calls st) = GetReturns r /\
                  silent_status (status_code r) = true
    | Raised e => is_request_exception e = false
    end ->
    exists es a',
      (after_request url params [] st, a) = (after_request url params es st, a') /\
      Forall (fetch_event url params) es /\
      requests_of es = 0%nat /\
      match a' with
      | Returned body =>
          es = [] /\
          exists r, w (calls st) = GetReturns r /\ status_code r = 200 /\
                    json_body r = Ok body
      | FellThrough retries' =>
          retries' = retries + 1 \/
          (retries' = retries /\ es = [] /\
           exists r, w (calls st) = GetReturns r /\
                     silent_status (status_code r) = true)
      | Raised e => is_request_exception e = false
      end).
  { intros a Ha. exists [], a. split; [reflexivity|]. split; [constructor|].
    split; [reflexivity|].
    destruct a as [body|retries'|e].
    - now split.
    - destruct Ha as (r & -> & Hr). right. split; [reflexivity|].
      split; [reflexivity|]. now exists r.
    - exact Ha. }
  unfold iteration, try_block, raise_for_status.
  change (mkState (S (calls st)) (trace st ++ [HttpGet url params]))
    with (after_request url params [] st).
  destruct (w (calls st)) as [e|r] eqn:Hw.
  - destruct (is_request_exception e) eqn:He; [apply Hexc|].
    now apply (Hnone (Raised e)).
  - destruct (status_code r =? 200) eqn:E200.
    + destruct (json_body r) as [body|e] eqn:Hb.
      * apply (Hnone (Returned body)). exists r.
        repeat split; [now apply Z.eqb_eq | exact Hb].
      * destruct (is_request_exception e) eqn:He; [apply Hexc|].
        now apply (Hnone (Raised e)).
    + destruct (status_code r =? 429) eqn:E429.
      * destruct (retry_after_of r) as [n|e] eqn:Hn.
        -- cbv zeta. destruct (sleep_allowed _) eqn:Hs.
           ++ rewrite !emit_after_request.
              eexists _, _. split; [reflexivity|].
              split; [repeat constructor; now apply sleep_allowed_nonneg|].
              split; [reflexivity | now left].
           ++ rewrite !emit_after_request. cbn [is_request_exception].
              eexists _, _. split; [reflexivity|].
              split; [repeat constructor|]. split; reflexivity.
        -- destruct (is_request_exception e) eqn:He; [apply Hexc|].
           now apply (Hnone (Raised e)).
      * destruct ((400 <=? status_code r) && (status_code r <? 600)) eqn:Eerr.
        -- cbn [is_request_exception]. apply Hexc.
        -- apply (Hnone (FellThrough retries)). exists r.
           split; [reflexivity|]. split; [reflexivity|].
           unfold silent_status. now rewrite E200, E429, Eerr.
Qed.

(** Every run of the loop continues the trace by its own events. *)
Lemma fetch_loop_fetched (fuel : nat) :
  forall (retries : Z) (st : state),
    fetched_since url params st
      (fst (fetch_loop w url params max_retries backoff_factor fuel retries st)).
Proof.
  assert (Hrefl : forall st, fetched_since url params st st).
  { intros st. exists []. rewrite app_nil_r, Nat.add_0_r. now repeat split. }
  induction fuel as [|fuel IH]; intros retries st; cbn [fetch_loop];
    destruct (retries <? max_retries); cbn [fst]; try apply Hrefl.
  destruct (iteration_cases retries st) as (es & a & Hit & Hev & Hreq & _).
  rewrite Hit.
  assert (Hstep : fetched_since url params st (after_request url params es st)).
  { exists (HttpGet url params :: es). split; [reflexivity|]. split.
    - constructor; [now split | exact Hev].
    - change (HttpGet url params :: es) with ([HttpGet url params] ++ es).
      rewrite requests_of_app, Hreq. cbn. lia. }
  destruct a as [body|retries'|e]; cbn [fst]; try exact Hstep.
  destruct (IH retries' (after_request url params es st)) as (t & Ht & Hft & Hc).
  destruct Hstep as (t0 & Ht0 & Hft0 & Hc0).
  exists (t0 ++ t). split; [|split].
  - now rewrite Ht, Ht0, app_assoc.
  - apply Forall_app. now split.
  - rewrite Hc, Hc0, requests_of_app. lia.
Qed.

End FetchInvariants.

Section FetchBounds.

Variable w : world.
Variables (url : string) (params : json).
Variables (max_retries : Z) (backoff_factor : Q).

Lemma iteration_calls (retries : Z) (st : state) :
  calls (fst (iteration w url params max_retries backoff_factor retries st))
  = S (calls st).
Proof.
  destruct (iteration_cases w url params max_retries backoff_factor retries st)
    as (es & a & -> & _). reflexivity.
Qed.

(** Without silent statuses every iteration that goes round uses up one
    unit of the budget, so the requests of a run are bounded by what is
    left of it. *)
Lemma fetch_loop_calls_bound (fuel : nat) :
  (forall k r, w k = GetReturns r -> silent_status (status_code r) = false) ->
  forall (retries : Z) (st : state),
    (calls (fst (fetch_loop w url params max_retries backoff_factor fuel retries st))
     <= calls st + Z.to_nat (max_retries - retries))%nat.
Proof.
  intros Hw. induction fuel as [|fuel IH]; intros retries st; cbn [fetch_loop];
    destruct (retries <? max_retries) eqn:Hlt; cbn [fst]; try lia.
  apply Z.ltb_lt in Hlt.
  pose proof (iteration_calls retries st) as Hc.
  destruct (iteration w url params max_retries backoff_factor retries st)
    as [st1 [body|retries'|e]] eqn:Hit; cbn [fst] in *; try lia.
  destruct (iteration_fell_through _ _ _ _ _ _ _ _ _ Hit) as [->|(r & Hr & Hs)].
  - specialize (IH (retries + 1) st1). lia.
  - rewrite (Hw _ _ Hr) in Hs. discriminate.
Qed.

Lemma fetch_loop_returned (fuel : nat) :
  forall (retries : Z) (st st' : state) (body : json),
    fetch_loop w url params max_retries backoff_factor fuel retries st
    = (st', Return body) ->
    exists k r,
      calls st' = S k /\ (calls st <= k)%nat /\
      w k = GetReturns r /\ status_code r = 200 /\ json_body r = Ok body.
Proof.
  induction fuel as [|fuel IH]; intros retries st st' body; cbn [fetch_loop];
    destruct (retries <? max_retries); try discriminate.
  destruct (iteration_cases w url params max_retries backoff_factor retries st)
    as (es & a & -> & _ & _ & Ha).
  destruct a as [body'|retries'|e]; [| |discriminate].
  - intros [= <- <-]. destruct Ha as (_ & r & Hr & Hs & Hb).
    exists (calls st), r. cbn [after_request calls]. now repeat split.
  - intros H. apply IH in H as (k & r & Hc & Hle & Hrest).
    exists k, r. cbn [after_request calls] in Hle. repeat split; try tauto. lia.
Qed.

Lemma fetch_loop_raised (fuel : nat) :
  forall (retries : Z) (st st' : state) (e : exn),
    fetch_loop w url params max_retries backoff_factor fuel retries st
    = (st', Raises e) ->
    is_request_exception e = false.
Proof.
  induction fuel as [|fuel IH]; intros retries st st' e; cbn [fetch_loop];
    destruct (retries <? max_retries); try discriminate;
    try (intros [= _ <-]; reflexivity).
  destruct (iteration_cases w url params max_retries backoff_factor retries st)
    as (es & a & -> & _ & _ & Ha).
  destruct a as [body'|retries'|e']; [discriminate| |].
  - apply IH.
  - now intros [= _ <-].
Qed.

End FetchBounds.

(** X1.  Whatever the world answers and however the call ends, a call of
    [fetch_api_data] only appends to the trace, and what it appends are
    requests to the given [url] with the given [params], sleeps of a
    non-negative duration and its own three console lines; the number of
    requests counted is the number of requests in the trace. *)
Theorem fetch_api_data_effects
  (w : world) (url : string) (params : json) (max_retries : Z)
  (backoff_factor : Q) (fuel : nat) (st : state) :
  exists t,
    trace (fst (fetch_api_data w url params max_retries backoff_factor fuel st))
    = trace st ++ t /\
    Forall (fetch_event url params) t /\
    calls (fst (fetch_api_data w url params max_retries backoff_factor fuel st))
    = (calls st + requests_of t)%nat.
Proof.
  apply (fetch_loop_fetched w url params max_retries backoff_factor fuel 0 st).
Qed.

(** X2.  In a world that never answers with a silent status (one that is
    not 200, not 429 and not in 400..599), a call of [fetch_api_data] ends
    within [max_retries] iterations of its loop and issues at most
    [max_retries] requests. *)
Theorem fetch_api_data_request_budget
  (w : world) (url : string) (params : json) (max_retries : Z)
  (backoff_factor : Q) (fuel : nat) (st : state) :
  (forall k r, w k = GetReturns r -> silent_status (status_code r) = false) ->
  (Z.to_nat max_retries <= fuel)%nat ->
  snd (fetch_api_data w url params max_retries backoff_factor fuel st) <> OutOfFuel
  /\
  (calls (fst (fetch_api_data w url params max_retries backoff_factor fuel st))
   <= calls st + Z.to_nat max_retries)%nat.
Proof.
  intros Hw Hfuel. unfold fetch_api_data. split.
  - apply fetch_loop_terminates; [exact Hw | lia].
  - pose proof (fetch_loop_calls_bound w url params max_retries backoff_factor
                  fuel Hw 0 st) as H.
    now rewrite Z.sub_0_r in H.
Qed.

Lemma fetch_api_data_request_budget_witness :
  snd (fetch_api_data (always (status_only 500)) API_URL JNull 3 1 3 initial)
  <> OutOfFuel
  /\
  (calls (fst (fetch_api_data (always (status_only 500)) API_URL JNull 3 1 3 initial))
   <= calls initial + Z.to_nat 3)%nat.
Proof.
  apply (fetch_api_data_request_budget (always (status_only 500)) API_URL JNull 3 1
           3 initial).
  - intros k r [= <-]. reflexivity.
  - cbn. lia.
Defined.

(** X3.  What [fetch_api_data] returns is the parsed body of an answer with
    status 200, and that answer is the one to the last request of the
    call. *)
Theorem fetch_api_data_returns_a_200_body
  (w : world) (url : string) (params : json) (max_retries : Z)
  (backoff_factor : Q) (fuel : nat) (st st' : state) (body : json) :
  fetch_api_data w url params max_retries backoff_factor fuel st = (st', Return body) ->
  exists k r,
    calls st' = S k /\ (calls st <= k)%nat /\
    w k = GetReturns r /\ status_code r = 200 /\ json_body r = Ok body.
Proof.
  apply fetch_loop_returned.
Qed.

Lemma fetch_api_data_returns_a_200_body_witness :
  exists k r,
    2%nat = S k /\ (calls initial <= k)%nat /\
    script [status_only 500] (ok_200 madrid_response) k = GetReturns r /\
    status_code r = 200 /\ json_body r = Ok madrid_response.
Proof.
  apply (fetch_api_data_returns_a_200_body
           (script [status_only 500] (ok_200 madrid_response)) API_URL JNull 3 1 2
           initial
           (mkState 2
              [HttpGet API_URL JNull;
               Print (RequestFailed (RequestException (HTTPError 500)));
               Print (RetryingIn (1 * inject_Z (2 ^ 1)));
               Sleep (1 * inject_Z (2 ^ 1));
               HttpGet API_URL JNull])
           madrid_response).
  reflexivity.
Defined.

(** X4.  No [RequestException] leaves [fetch_api_data]: those raised in
    the [try] block are all taken by the [except] clause, which sleeps or
    raises a plain [Exception]. *)
Theorem fetch_api_data_raises_no_request_exception
  (w : world) (url : string) (params : json) (max_retries : Z)
  (backoff_factor : Q) (fuel : nat) (st st' : state) (e : exn) :
  fetch_api_data w url params max_retries backoff_factor fuel st = (st', Raises e) ->
  is_request_exception e = false.
Proof.
  apply fetch_loop_raised.
Qed.

Lemma fetch_api_data_raises_no_request_exception_witness :
  is_request_exception (Exception "Max retries (1) exceeded.") = false.
Proof.
  apply (fetch_api_data_raises_no_request_exception
           (always (GetRaises (RequestException ConnectionError))) API_URL JNull 1 1 1
           initial
           (mkState 1 [HttpGet API_URL JNull;
                       Print (RequestFailed (RequestException ConnectionError))])
           (Exception "Max retries (1) exceeded.")).
  reflexivity.
Defined.

(** X5.  With [max_retries] zero or negative the loop is never entered: no
    request is issued, nothing is printed or slept, and the call raises the
    error that follows the loop. *)
Theorem fetch_api_data_without_budget
  (w : world) (url : string) (params : json) (max_retries : Z)
  (backoff_factor : Q) (fuel : nat) (st : state) :
  max_retries <= 0 ->
  fetch_api_data w url params max_retries backoff_factor fuel st
  = (st, Raises (Exception ("API request failed after " ++ str_of_int max_retries
                            ++ " retries."))).
Proof.
  intros H. unfold fetch_api_data. now apply loop_exit.
Qed.

Lemma fetch_api_data_without_budget_witness :
  fetch_api_data (always (ok_200 madrid_response)) API_URL JNull 0 1 5 initial
  = (initial, Raises (Exception "API request failed after 0 retries.")).
Proof.
  apply (fetch_api_data_without_budget (always (ok_200 madrid_response))
           API_URL JNull 0 1 5 initial).
  lia.
Defined.

(** X6.  A 429 answer whose [Retry-After] is an integer [n] with
    [n * backoff_factor] negative ends the call: the rate-limit line is
    printed, [time.sleep] refuses the negative duration with a [ValueError],
    and that error leaves [fetch_api_data] without a sleep and without
    another request. *)
Theorem negative_retry_after_escapes
  (w : world) (url : string) (params : json) (max_retries : Z)
  (backoff_factor : Q) (fuel : nat) (retries : Z) (st : state)
  (r : response) (n : Z) :
  w (calls st) = GetReturns r ->
  status_code r = 429 ->
  retry_after_of r = Ok n ->
  (inject_Z n * backoff_factor < 0)%Q ->
  retries < max_retries ->
  fetch_loop w url params max_retries backoff_factor (S fuel) retries st
  = (after_request url params [Print (RateLimited n)] st,
     Raises (ValueError "sleep length must be non-negative")).
Proof.
  intros Hw Hs Hn Hneg Hlt.
  rewrite loop_enter by lia.
  unfold iteration, try_block. rewrite Hw, Hs, Hn. cbn [Z.eqb Pos.eqb]. cbv zeta.
  assert (Hsl : sleep_allowed (inject_Z n * backoff_factor) = false).
  { unfold sleep_allowed.
    destruct (Qle_bool 0 (inject_Z n * backoff_factor)) eqn:E; [|reflexivity].
    apply Qle_bool_iff in E. exfalso. now apply (Qlt_not_le _ _ Hneg). }
  rewrite Hsl. cbn [is_request_exception].
  unfold emit, after_request; cbn [calls trace]. now rewrite <- app_assoc.
Qed.

Lemma negative_retry_after_escapes_witness :
  fetch_loop (always (too_many_requests (Some "-5"))) API_URL JNull 3 1 1 0 initial
  = (after_request API_URL JNull [Print (RateLimited (-5))] initial,
     Raises (ValueError "sleep length must be non-negative")).
Proof.
  apply (negative_retry_after_escapes (always (too_many_requests (Some "-5")))
           API_URL JNull 3 1 0 0 initial
           (mkResponse 429 (Some "-5") (Raise (RequestException JSONDecodeError)))
           (-5));
    [reflexivity | reflexivity | reflexivity | reflexivity | lia].
Defined.





(* ------------------------------------------------------------------ *)
(** ** More on the validator *)

(** X9.  Only a mapping validates: for a response that is a list, a
    string, a number, a boolean or [null], [validate_response_schema]
    raises. *)
Theorem validate_accepts_mappings_only (response : json) :
  validate_response_schema response = Ok tt ->
  exists d, response = JDict d.
Proof.
  unfold validate_response_schema.
  destruct response as [| b | q | s | l | d]; try discriminate.
  - destruct (require_all missing_key required_keys (JStr s)); discriminate.
  - destruct (require_all missing_key required_keys (JList l)); discriminate.
  - intros _. now exists d.
Qed.

Lemma validate_accepts_mappings_only_witness :
  exists d, JDict valid_response = JDict d.
Proof.
  apply (validate_accepts_mappings_only (JDict valid_response)).
  reflexivity.
Defined.

(** X10.  Validation does not make the aggregation safe.  When the five
    top-level keys are present and [daily] is a list that holds the four
    names as strings, [validate_response_schema] succeeds, since [in] on a
    list looks for an element; [process_daily_data] then raises a
    [TypeError] on [daily_data['time']]. *)
Theorem validated_list_under_daily
  (d : list (string * json)) (l : list json) (city : string) :
  Forall (fun key => dict_has d key = true) required_keys ->
  dict_get d "daily" = Some (JList l) ->
  Forall (fun var => existsb (json_is_str var) l = true) required_vars ->
  validate_response_schema (JDict d) = Ok tt /\
  process_daily_data (JDict d) city
  = Raise (TypeError "list indices must be integers or slices, not str").
Proof.
  intros Hk Hd Hv. split.
  - unfold validate_response_schema.
    apply (require_all_dict_ok_iff missing_key) in Hk. rewrite Hk.
    cbn [py_getitem]. rewrite Hd.
    apply require_all_ok_iff.
    induction Hv as [|v vs Hv _ IH]; constructor; [|exact IH].
    cbn [py_in]. now rewrite Hv.
  - unfold process_daily_data, bind. cbn [py_getitem]. now rewrite Hd.
Qed.

Lemma validated_list_under_daily_witness :
  validate_response_schema
    (JDict [ ("daily", JList [JStr "time"; JStr "temperature_2m_mean";
                              JStr "precipitation_sum"; JStr "wind_speed_10m_max"]);
             ("daily_units", JNull); ("latitude", JNull); ("longitude", JNull);
             ("generationtime_ms", JNull) ]) = Ok tt /\
  process_daily_data
    (JDict [ ("daily", JList [JStr "time"; JStr "temperature_2m_mean";
                              JStr "precipitation_sum"; JStr "wind_speed_10m_max"]);
             ("daily_units", JNull); ("latitude", JNull); ("longitude", JNull);
             ("generationtime_ms", JNull) ]) "Madrid"
  = Raise (TypeError "list indices must be integers or slices, not str").
Proof.
  apply (validated_list_under_daily
           [ ("daily", JList [JStr "time"; JStr "temperature_2m_mean";
                              JStr "precipitation_sum"; JStr "wind_speed_10m_max"]);
             ("daily_units", JNull); ("latitude", JNull); ("longitude", JNull);
             ("generationtime_ms", JNull) ]
           [JStr "time"; JStr "temperature_2m_mean";
            JStr "precipitation_sum"; JStr "wind_speed_10m_max"]
           "Madrid");
    [repeat constructor | reflexivity | repeat constructor].
Defined.

(* ------------------------------------------------------------------ *)
(** ** More on the aggregator *)



Lemma to_datetime_not_key_error (col : list json) (e : exn) :
  to_datetime col = Raise e -> forall key, e <> KeyError key.
Proof.
  induction col as [|c col IH]; cbn [to_datetime]; [discriminate|].
  destruct c; try (intros [= <-]; discriminate).
  destruct (parse_date s); [|intros [= <-]; discriminate].
  destruct (to_datetime col); [discriminate|].
  intros [= <-]. now apply IH.
Qed.

Lemma numeric_not_key_error (col : list json) (e : exn) :
  numeric col = Raise e -> forall key, e <> KeyError key.
Proof.
  induction col as [|c col IH]; cbn [numeric]; [discriminate|].
  destruct (match c with JNum q => Some (Some q) | JNull => Some None | _ => None end);
    [|intros [= <-]; discriminate].
  destruct (numeric col); [discriminate|].
  intros [= <-]. now apply IH.
Qed.

Lemma as_array_ok (v : json) (l : list json) :
  as_array v = Ok l -> v = JList l.
Proof.
  destruct v; try discriminate. now intros [= ->].
Qed.

(** The table as one map over the months of the index. *)
Lemma monthly_rows_resampled (f g h : list Q -> option Q) (index : list date)
  (a b c : list (option Q)) (city : string) :
  monthly_rows (resample_ME f index a) (resample_ME g index b)
    (resample_ME h index c) city
  = map (fun m => MonthlyTable.mkRow (month_end m) (f (bucket m index a))
                    (g (bucket m index b)) (h (bucket m index c)) city)
      (bins index).
Proof.
  unfold resample_ME. induction (bins index) as [|m ms IH]; [reflexivity|].
  cbn [map monthly_rows]. now rewrite IH.
Qed.

(** What a successful aggregation has read and computed. *)
Lemma process_daily_data_ok (response : json) (city : string)
  (rows : list MonthlyTable.row) :
  process_daily_data response city = Ok rows ->
  exists daily time temperature precipitation wind_speed index ta tb tc,
    py_getitem response "daily" = Ok daily /\
    py_getitem daily "time" = Ok (JList time) /\
    py_getitem daily "temperature_2m_mean" = Ok (JList temperature) /\
    py_getitem daily "precipitation_sum" = Ok (JList precipitation) /\
    py_getitem daily "wind_speed_10m_max" = Ok (JList wind_speed) /\
    same_length time temperature precipitation wind_speed = true /\
    to_datetime time = Ok index /\
    numeric temperature = Ok ta /\
    numeric precipitation = Ok tb /\
    numeric wind_speed = Ok tc /\
    rows = map (fun m => MonthlyTable.mkRow (month_end m)
                           (series_mean (bucket m index ta))
                           (series_sum (bucket m index tb))
                           (series_max (bucket m index tc)) city)
             (bins index).
Proof.
  unfold process_daily_data, bind.
  destruct (py_getitem response "daily") as [daily|] eqn:H0; [|discriminate].
  destruct (py_getitem daily "time") as [v1|] eqn:H1; [|discriminate].
  destruct (py_getitem daily "temperature_2m_mean") as [v2|] eqn:H2; [|discriminate].
  destruct (py_getitem daily "precipitation_sum") as [v3|] eqn:H3; [|discriminate].
  destruct (py_getitem daily "wind_speed_10m_max") as [v4|] eqn:H4; [|discriminate].
  destruct (as_array v1) as [l1|] eqn:A1; [|discriminate].
  destruct (as_array v2) as [l2|] eqn:A2; [|discriminate].
  destruct (as_array v3) as [l3|] eqn:A3; [|discriminate].
  destruct (as_array v4) as [l4|] eqn:A4; [|discriminate].
  apply as_array_ok in A1, A2, A3, A4. subst v1 v2 v3 v4.
  destruct (same_length l1 l2 l3 l4) eqn:Hlen; cbn [negb]; [|discriminate].
  destruct (to_datetime l1) as [index|] eqn:Hi; [|discriminate].
  destruct (numeric l2) as [ta|] eqn:Ha; [|discriminate].
  destruct (numeric l3) as [tb|] eqn:Hb; [|discriminate].
  destruct (numeric l4) as [tc|] eqn:Hc; [|discriminate].
  intros [= <-]. rewrite monthly_rows_resampled.
  exists daily, l1, l2, l3, l4, index, ta, tb, tc.
  repeat split; assumption.
Qed.








(** X13.  Arrays of different lengths are not noticed by the function
    itself: the construction of the table raises "All arrays must be of the
    same length", whatever the arrays hold. *)
Theorem arrays_of_different_length
  (d daily : list (string * json)) (time temperature precipitation wind_speed : list json)
  (city : string) :
  dict_get d "daily" = Some (JDict daily) ->
  dict_get daily "time" = Some (JList time) ->
  dict_get daily "temperature_2m_mean" = Some (JList temperature) ->
  dict_get daily "precipitation_sum" = Some (JList precipitation) ->
  dict_get daily "wind_speed_10m_max" = Some (JList wind_speed) ->
  ~ (length time = length temperature /\ length time = length precipitation
     /\ length time = length wind_speed) ->
  process_daily_data (JDict d) city
  = Raise (ValueError "All arrays must be of the same length").
Proof.
  intros Hd H1 H2 H3 H4 Hlen.
  unfold process_daily_data, bind. cbn [py_getitem].
  rewrite Hd. cbn [py_getitem]. rewrite H1, H2, H3, H4. cbn [as_array].
  destruct (same_length time temperature precipitation wind_speed) eqn:E;
    [|reflexivity].
  exfalso. apply Hlen. unfold same_length in E.
  apply andb_prop in E as [E E3]. apply andb_prop in E as [E1 E2].
  apply Nat.eqb_eq in E1, E2, E3. now repeat split.
Qed.

Lemma arrays_of_different_length_witness :
  process_daily_data
    (JDict [("daily", JDict [ ("time", JList [JStr "2010-01-01"; JStr "2010-01-02"]);
                              ("temperature_2m_mean", JList [JNum 10]);
                              ("precipitation_sum", JList [JNum 5; JNum 0]);
                              ("wind_speed_10m_max", JList [JNum 3; JNum 4]) ])])
    "Madrid"
  = Raise (ValueError "All arrays must be of the same length").
Proof.
  apply (arrays_of_different_length
           [("daily", JDict [ ("time", JList [JStr "2010-01-01"; JStr "2010-01-02"]);
                              ("temperature_2m_mean", JList [JNum 10]);
                              ("precipitation_sum", JList [JNum 5; JNum 0]);
                              ("wind_speed_10m_max", JList [JNum 3; JNum 4]) ])]
           [ ("time", JList [JStr "2010-01-01"; JStr "2010-01-02"]);
             ("temperature_2m_mean", JList [JNum 10]);
             ("precipitation_sum", JList [JNum 5; JNum 0]);
             ("wind_speed_10m_max", JList [JNum 3; JNum 4]) ]
           [JStr "2010-01-01"; JStr "2010-01-02"] [JNum 10] [JNum 5; JNum 0]
           [JNum 3; JNum 4] "Madrid");
    try reflexivity.
  cbn. intros (H & _). discriminate.
Defined.

(** X14.  On a response that was not validated, a missing key shows as a
    [KeyError]: for [daily] when the response has none, and otherwise for
    the first array that the mapping under [daily] lacks, in the order
    [time], [temperature_2m_mean], [precipitation_sum],
    [wind_speed_10m_max] in which the function reads them. *)
Theorem aggregation_missing_key (d : list (string * json)) (city : string) :
  (dict_get d "daily" = None ->
   process_daily_data (JDict d) city = Raise (KeyError "daily"))
  /\
  (forall (daily : list (string * json)) (before after : list string) (key : string),
      dict_get d "daily" = Some (JDict daily) ->
      daily_columns = before ++ key :: after ->
      Forall (fun k => dict_has daily k = true) before ->
      dict_has daily key = false ->
      process_daily_data (JDict d) city = Raise (KeyError key)).
Proof.
  split.
  - intros Hd. unfold process_daily_data, bind. cbn [py_getitem]. now rewrite Hd.
  - intros daily before after key Hd Heq Hb Hk.
    unfold process_daily_data, bind. cbn [py_getitem]. rewrite Hd. cbn [py_getitem].
    unfold dict_has in Hk.
    destruct (dict_get daily key) eqn:Hkey; [discriminate|].
    unfold daily_columns in Heq.
    repeat (destruct before as [|? before];
            [ injection Heq as <- _; now rewrite ?Hkey
            | injection Heq as <- Heq;
              apply Forall_cons_iff in Hb as [Hh Hb];
              apply dict_has_get in Hh as [? Hh]; rewrite Hh; clear Hh ]).
    now destruct before.
Qed.

Lemma aggregation_missing_key_witness :
  process_daily_data
    (JDict [("daily", JDict [("time", JList []); ("precipitation_sum", JList [])])])
    "Rio"
  = Raise (KeyError "temperature_2m_mean").
Proof.
  apply (proj2 (aggregation_missing_key
                  [("daily", JDict [("time", JList []); ("precipitation_sum", JList [])])]
                  "Rio")
           [("time", JList []); ("precipitation_sum", JList [])]
           ["time"] ["precipitation_sum"; "wind_speed_10m_max"]
           "temperature_2m_mean");
    [reflexivity | reflexivity | repeat constructor | reflexivity].
Defined.

Lemma validated_daily_keys (d daily : list (string * json)) :
  validate_response_schema (JDict d) = Ok tt ->
  dict_get d "daily" = Some (JDict daily) ->
  Forall (fun var => dict_has daily var = true) required_vars.
Proof.
  unfold validate_response_schema. intros H Hd.
  destruct (require_all missing_key required_keys (JDict d)); [|discriminate].
  cbn [py_getitem] in H. rewrite Hd in H.
  now apply (require_all_dict_ok_iff missing_variable).
Qed.

(** X15.  After a successful validation, with a mapping under [daily], the
    lookups of [process_daily_data] all succeed: whatever else goes wrong in
    the aggregation, it is never a [KeyError]. *)
Theorem validated_response_has_its_keys
  (d daily : list (string * json)) (city key : string) :
  validate_response_schema (JDict d) = Ok tt ->
  dict_get d "daily" = Some (JDict daily) ->
  process_daily_data (JDict d) city <> Raise (KeyError key).
Proof.
  intros Hv Hd.
  pose proof (validated_daily_keys d daily Hv Hd) as Hkeys.
  unfold required_vars, VARIABLES in Hkeys. cbn [app] in Hkeys.
  repeat match goal with
         | H : Forall _ (_ :: _) |- _ => apply Forall_cons_iff in H as [?H H]
         end.
  repeat match goal with
         | H : dict_has daily _ = true |- _ => apply dict_has_get in H as [? H]
         end.
  unfold process_daily_data, bind. cbn [py_getitem]. rewrite Hd. cbn [py_getitem].
  repeat match goal with
         | H : dict_get daily _ = Some _ |- _ => rewrite H; clear H
         end.
  repeat match goal with
         | |- context [as_array ?v] =>
             destruct v; cbn [as_array]; try discriminate
         end.
  destruct (same_length _ _ _ _); cbn [negb]; [|discriminate].
  match goal with
  | |- context [to_datetime ?l] => destruct (to_datetime l) eqn:E
  end; [|intros [= ->]; now apply (to_datetime_not_key_error _ _ E key)].
  repeat match goal with
         | |- context [numeric ?l] =>
             let E := fresh "E" in
             destruct (numeric l) eqn:E;
             [|intros [= ->]; now apply (numeric_not_key_error _ _ E key)]
         end.
  discriminate.
Qed.

Lemma validated_response_has_its_keys_witness :
  process_daily_data (JDict valid_response) "Madrid" <> Raise (KeyError "time").
Proof.
  apply (validated_response_has_its_keys valid_response valid_daily "Madrid" "time");
    reflexivity.
Defined.










Lemma to_datetime_months (col : list json) :
  forall index, to_datetime col = Ok index ->
                Forall (fun d => 1 <= month d <= 12) index.
Proof.
  induction col as [|c col IH]; intros index; cbn [to_datetime].
  - intros [= <-]. constructor.
  - destruct c; try discriminate.
    destruct (parse_date s) as [d|] eqn:Hp; [|discriminate].
    destruct (to_datetime col) as [ds|]; [|discriminate].
    intros [= <-]. constructor; [now apply (parse_date_month s) | now apply IH].
Qed.

(** The month that a month-end label names. *)
Lemma month_end_fields (m : Z) :
  year (month_end m) * 12 + (month (month_end m) - 1) = m.
Proof.
  unfold month_end. cbn [year month].
  pose proof (Z.div_mod m 12). lia.
Qed.

Lemma same_month_index (d : date) (m : Z) :
  1 <= month d <= 12 ->
  (month_index d = m <->
   year d = year (month_end m) /\ month d = month (month_end m)).
Proof.
  intros Hd. unfold month_index, month_end. cbn [year month].
  pose proof (Z.div_mod m 12). pose proof (Z.mod_pos_bound m 12).
  split.
  - intros <-.
    replace (year d * 12 + (month d - 1)) with ((month d - 1) + year d * 12) by lia.
    rewrite Z.div_add, Z.mod_add by lia.
    rewrite Z.div_small, Z.mod_small by lia. lia.
  - intros [-> ->]. lia.
Qed.

Lemma bucket_without_days (m : Z) (index : list date) :
  Forall (fun d => month_index d <> m) index ->
  forall cells, bucket m index cells = [].
Proof.
  induction 1 as [|d index Hd _ IH]; intros cells; [reflexivity|].
  destruct cells as [|[q|] cells]; cbn [bucket]; [reflexivity| |apply IH].
  apply Z.eqb_neq in Hd. rewrite Hd. apply IH.
Qed.

(** X17.  A month between the first and the last day for which the
    response has no day still gets a row: its temperature and its wind
    speed are missing and its precipitation is 0. *)
Theorem month_without_days
  (d daily : list (string * json)) (times : list json) (index : list date)
  (city : string) (rows : list MonthlyTable.row) (r : MonthlyTable.row) :
  dict_get d "daily" = Some (JDict daily) ->
  dict_get daily "time" = Some (JList times) ->
  to_datetime times = Ok index ->
  process_daily_data (JDict d) city = Ok rows ->
  In r rows ->
  Forall (fun day => ~ (year day = year (MonthlyTable.time r) /\
                        month day = month (MonthlyTable.time r))) index ->
  MonthlyTable.temperature r = None /\
  MonthlyTable.precipitation r = Some 0%Q /\
  MonthlyTable.wind_speed r = None.
Proof.
  intros Hd Ht Hindex H Hr Hnone.
  destruct (process_daily_data_ok _ _ _ H)
    as (daily' & time & a & b & c & index' & ta & tb & tc & H0 & H1 & _ & _ & _
        & _ & Hi & _ & _ & _ & ->).
  cbn [py_getitem] in H0. rewrite Hd in H0. injection H0 as <-.
  cbn [py_getitem] in H1. rewrite Ht in H1. injection H1 as <-.
  rewrite Hindex in Hi. injection Hi as <-.
  apply in_map_iff in Hr as (m & <- & _).
  cbn [MonthlyTable.time MonthlyTable.temperature MonthlyTable.precipitation
       MonthlyTable.wind_speed] in *.
  assert (Hempty : forall cells, bucket m index cells = []).
  { apply bucket_without_days.
    pose proof (to_datetime_months _ _ Hindex) as Hmonths.
    rewrite Forall_forall in *. intros day Hday Heq.
    apply (Hnone day Hday).
    now apply same_month_index; [apply Hmonths|]. }
  rewrite !Hempty. repeat split.
Qed.

Lemma month_without_days_witness :
  MonthlyTable.temperature
    (MonthlyTable.mkRow (mkDate 2010 2 28) None (Some 0%Q) None "Rio") = None /\
  MonthlyTable.precipitation
    (MonthlyTable.mkRow (mkDate 2010 2 28) None (Some 0%Q) None "Rio") = Some 0%Q /\
  MonthlyTable.wind_speed
    (MonthlyTable.mkRow (mkDate 2010 2 28) None (Some 0%Q) None "Rio") = None.
Proof.
  apply (month_without_days
           [("daily", JDict [ ("time", JList [JStr "2010-01-31"; JStr "2010-03-01"]);
                              ("temperature_2m_mean", JList [JNum 10; JNum 12]);
                              ("precipitation_sum", JList [JNum 5; JNum 0]);
                              ("wind_speed_10m_max", JList [JNum 3; JNum 4]) ])]
           [ ("time", JList [JStr "2010-01-31"; JStr "2010-03-01"]);
             ("temperature_2m_mean", JList [JNum 10; JNum 12]);
             ("precipitation_sum", JList [JNum 5; JNum 0]);
             ("wind_speed_10m_max", JList [JNum 3; JNum 4]) ]
           [JStr "2010-01-31"; JStr "2010-03-01"]
           [mkDate 2010 1 31; mkDate 2010 3 1]
           "Rio"
           [ MonthlyTable.mkRow (mkDate 2010 1 31) (Some 10%Q) (Some 5%Q) (Some 3%Q) "Rio";
             MonthlyTable.mkRow (mkDate 2010 2 28) None (Some 0%Q) None "Rio";
             MonthlyTable.mkRow (mkDate 2010 3 31) (Some 12%Q) (Some 0%Q) (Some 4%Q) "Rio" ]
           (MonthlyTable.mkRow (mkDate 2010 2 28) None (Some 0%Q) None "Rio"));
    try reflexivity.
  - right. left. reflexivity.
  - repeat constructor; cbn; intros [_ H]; discriminate.
Defined.

Lemma fold_Qmax_ge (x : Q) (rest : list Q) (q : Q) :
  In q (x :: rest) -> (q <= fold_right Qmax x rest)%Q.
Proof.
  induction rest as [|y rest IH]; cbn [fold_right].
  - intros [->|[]]. apply Qle_refl.
  - intros [->|[->|Hin]].
    + eapply Qle_trans; [apply IH; now left | apply Q.le_max_r].
    + apply Q.le_max_l.
    + eapply Qle_trans; [apply IH; now right | apply Q.le_max_r].
Qed.

Lemma bucket_member (m : Z) (index : list date) :
  forall (cells : list (option Q)) (day : date) (q : Q),
    In (day, Some q) (combine index cells) ->
    month_index day = m ->
    In q (bucket m index cells).
Proof.
  induction index as [|d index IH]; intros cells day q; [intros []|].
  destruct cells as [|cell cells]; [intros []|].
  cbn [combine]. intros [Heq|Hin] Hm.
  - injection Heq as -> ->. cbn [bucket]. rewrite Hm, Z.eqb_refl. now left.
  - cbn [bucket]. destruct cell as [q'|]; [|now apply (IH cells day)].
    destruct (month_index d =? m); [right|]; now apply (IH cells day).
Qed.

(** X18.  The wind speed of a monthly row is at least every daily wind
    speed of that month: a day of the response with wind speed [q] in the
    month of a row makes the row's wind speed present and not below [q]. *)
Theorem monthly_wind_speed_dominates
  (d daily : list (string * json)) (times winds : list json)
  (index : list date) (cells : list (option Q))
  (city : string) (rows : list MonthlyTable.row) (r : MonthlyTable.row)
  (day : date) (q : Q) :
  dict_get d "daily" = Some (JDict daily) ->
  dict_get daily "time" = Some (JList times) ->
  dict_get daily "wind_speed_10m_max" = Some (JList winds) ->
  to_datetime times = Ok index ->
  numeric winds = Ok cells ->
  process_daily_data (JDict d) city = Ok rows ->
  In r rows ->
  In (day, Some q) (combine index cells) ->
  year day = year (MonthlyTable.time r) ->
  month day = month (MonthlyTable.time r) ->
  exists v, MonthlyTable.wind_speed r = Some v /\ (q <= v)%Q.
Proof.
  intros Hd Ht Hw Hindex Hcells H Hr Hday Hy Hm.
  destruct (process_daily_data_ok _ _ _ H)
    as (daily' & time & a & b & c & index' & ta & tb & tc & H0 & H1 & _ & _ & H4
        & _ & Hi & _ & _ & Hc & ->).
  cbn [py_getitem] in H0. rewrite Hd in H0. injection H0 as <-.
  cbn [py_getitem] in H1. rewrite Ht in H1. injection H1 as <-.
  cbn [py_getitem] in H4. rewrite Hw in H4. injection H4 as <-.
  rewrite Hindex in Hi. injection Hi as <-.
  rewrite Hcells in Hc. injection Hc as <-.
  apply in_map_iff in Hr as (m & <- & _).
  cbn [MonthlyTable.time MonthlyTable.wind_speed] in *.
  assert (Hmi : month_index day = m).
  { apply same_month_index; [|now split].
    pose proof (to_datetime_months _ _ Hindex) as Hmonths.
    rewrite Forall_forall in Hmonths. apply Hmonths.
    now apply in_combine_l in Hday. }
  pose proof (bucket_member m index cells day q Hday Hmi) as Hin.
  unfold series_max. destruct (bucket m index cells) as [|x rest]; [destruct Hin|].
  eexists. split; [reflexivity|].
  rewrite Qred_correct. now apply fold_Qmax_ge.
Qed.

Lemma monthly_wind_speed_dominates_witness :
  exists v,
    MonthlyTable.wind_speed
      (MonthlyTable.mkRow (mkDate 2010 1 31) (Some 11%Q) (Some 5%Q) (Some 4%Q) "Madrid")
    = Some v /\ (3 <= v)%Q.
Proof.
  apply (monthly_wind_speed_dominates madrid_fields madrid_daily
           [JStr "2010-01-01"; JStr "2010-01-02"] [JNum 3; JNum 4]
           [mkDate 2010 1 1; mkDate 2010 1 2] [Some 3%Q; Some 4%Q]
           "Madrid"
           [MonthlyTable.mkRow (mkDate 2010 1 31) (Some 11%Q) (Some 5%Q) (Some 4%Q)
              "Madrid"]
           (MonthlyTable.mkRow (mkDate 2010 1 31) (Some 11%Q) (Some 5%Q) (Some 4%Q)
              "Madrid")
           (mkDate 2010 1 1) 3);
    try reflexivity.
  - left. reflexivity.
  - left. reflexivity.
Defined.

(* ------------------------------------------------------------------ *)
(** ** More on the accessor *)

Lemma known_city (city : string) (coords : list (string * Q)) :
  dict_get COORDINATES city = Some coords ->
  exists latitude longitude,
    coords = [("latitude", latitude); ("longitude", longitude)].
Proof.
  unfold COORDINATES. cbn [dict_get].
  repeat (destruct (String.eqb _ city);
          [intros [= <-]; eexists _, _; reflexivity|]).
  discriminate.
Qed.

(** What [get_data_meteo_api] does for a city of the registry: one call of
    [fetch_api_data] with the defaults, then the validation. *)
Lemma get_data_known_city (w : world) (fuel : nat) (city : string) (st : state)
  (latitude longitude : Q) :
  dict_get COORDINATES city = Some [("latitude", latitude); ("longitude", longitude)] ->
  get_data_meteo_api w fuel city st
  = match fetch_api_data w API_URL (query_params latitude longitude) 3 1 fuel st with
    | (st', Return response) =>
        match validate_response_schema response with
        | Raise e => (st', Raises e)
        | Ok _ => (st', Return response)
        end
    | other => other
    end.
Proof.
  intros H. unfold get_data_meteo_api. rewrite H. reflexivity.
Qed.

Lemma validated_is_mapping (response : json) :
  validate_response_schema response = Ok tt -> exists d, response = JDict d.
Proof.
  unfold validate_response_schema.
  destruct response as [| b | q | s | l | d]; try discriminate.
  - destruct (require_all missing_key required_keys (JStr s)); discriminate.
  - destruct (require_all missing_key required_keys (JList l)); discriminate.
  - intros _. now exists d.
Qed.

(** X19.  A response that [get_data_meteo_api] returns has passed the
    validation, is a mapping, and is the parsed body of the answer with
    status 200 to the last request issued; the city is one of the
    registry. *)
Theorem get_data_returns_validated_body
  (w : world) (fuel : nat) (city : string) (st st' : state) (response : json) :
  get_data_meteo_api w fuel city st = (st', Return response) ->
  validate_response_schema response = Ok tt /\
  (exists d, response = JDict d) /\
  dict_get COORDINATES city <> None /\
  exists k r,
    calls st' = S k /\ (calls st <= k)%nat /\
    w k = GetReturns r /\ status_code r = 200 /\ json_body r = Ok response.
Proof.
  intros H.
  destruct (dict_get COORDINATES city) as [coords|] eqn:Hc;
    [|unfold get_data_meteo_api in H; rewrite Hc in H; discriminate].
  destruct (known_city city coords Hc) as (latitude & longitude & ->).
  rewrite (get_data_known_city w fuel city st latitude longitude Hc) in H.
  destruct (fetch_api_data w API_URL (query_params latitude longitude) 3 1 fuel st)
    as [st1 [body|e|]] eqn:Hf; try discriminate.
  destruct (validate_response_schema body) as [[]|e] eqn:Hv; [|discriminate].
  injection H as <- <-.
  split; [exact Hv|]. split; [now apply validated_is_mapping|].
  split; [discriminate|].
  now apply (fetch_loop_returned w API_URL (query_params latitude longitude) 3 1
               fuel 0 st st1 body).
Qed.

Lemma get_data_returns_validated_body_witness :
  validate_response_schema madrid_response = Ok tt /\
  (exists d, madrid_response = JDict d) /\
  dict_get COORDINATES "Madrid" <> None /\
  exists k r,
    1%nat = S k /\ (calls initial <= k)%nat /\
    always (ok_200 madrid_response) k = GetReturns r /\
    status_code r = 200 /\ json_body r = Ok madrid_response.
Proof.
  apply (get_data_returns_validated_body (always (ok_200 madrid_response)) 1
           "Madrid" initial
           (after_request API_URL (query_params (40416775 # 1000000)
                                     (- (3703790 # 1000000))) [] initial)
           madrid_response).
  reflexivity.
Defined.

(** X20.  For a city of the registry, every request of
    [get_data_meteo_api] goes to the archive URL with that city's
    coordinates, the dates 2010-01-01 and 2020-12-31 and the three
    variables joined by commas; nothing else but the sleeps and console
    lines of the retry loop is added to the trace.  In a world without
    silent statuses the call ends and has issued at most three requests. *)
Theorem get_data_requests
  (w : world) (fuel : nat) (city : string) (st : state) (latitude longitude : Q) :
  dict_get COORDINATES city = Some [("latitude", latitude); ("longitude", longitude)] ->
  fetched_since API_URL (query_params latitude longitude) st
    (fst (get_data_meteo_api w fuel city st))
  /\
  ((forall k r, w k = GetReturns r -> silent_status (status_code r) = false) ->
   (3 <= fuel)%nat ->
   snd (get_data_meteo_api w fuel city st) <> OutOfFuel /\
   (calls (fst (get_data_meteo_api w fuel city st)) <= calls st + 3)%nat).
Proof.
  intros Hc. rewrite (get_data_known_city w fuel city st latitude longitude Hc).
  pose proof (fetch_loop_fetched w API_URL (query_params latitude longitude) 3 1
                fuel 0 st) as Hf.
  pose proof (fetch_loop_calls_bound w API_URL (query_params latitude longitude) 3 1
                fuel) as Hb.
  pose proof (fetch_loop_terminates w API_URL (query_params latitude longitude) 3 1
                fuel) as Ht.
  unfold fetch_api_data.
  destruct (fetch_loop w API_URL (query_params latitude longitude) 3 1 fuel 0 st)
    as [st1 [body|e|]] eqn:Hrun; cbn [fst snd] in *.
  - destruct (validate_response_schema body); cbn [fst snd];
      (split; [exact Hf|]); intros Hw Hfuel;
      (split; [discriminate|]); specialize (Hb Hw 0 st); rewrite Hrun in Hb;
      cbn [fst] in Hb; cbn in Hb; lia.
  - split; [exact Hf|]. intros Hw Hfuel. split; [discriminate|].
    specialize (Hb Hw 0 st). rewrite Hrun in Hb. cbn [fst] in Hb. cbn in Hb. lia.
  - split; [exact Hf|]. intros Hw Hfuel. exfalso.
    specialize (Ht Hw 0 st). rewrite Hrun in Ht. cbn [snd] in Ht.
    apply Ht; [cbn; lia | reflexivity].
Qed.

Lemma get_data_requests_witness :
  fetched_since API_URL
    (query_params (- (22906847 # 1000000)) (- (43172896 # 1000000))) initial
    (fst (get_data_meteo_api (always (status_only 500)) 3 "Rio" initial))
  /\
  ((forall k r, always (status_only 500) k = GetReturns r ->
                silent_status (status_code r) = false) ->
   (3 <= 3)%nat ->
   snd (get_data_meteo_api (always (status_only 500)) 3 "Rio" initial) <> OutOfFuel /\
   (calls (fst (get_data_meteo_api (always (status_only 500)) 3 "Rio" initial))
    <= calls initial + 3)%nat).
Proof.
  apply (get_data_requests (always (status_only 500)) 3 "Rio" initial
           (- (22906847 # 1000000)) (- (43172896 # 1000000))).
  reflexivity.
Defined.

(* ------------------------------------------------------------------ *)
(** ** More on the driver *)

Section DriverRuns.

Variable w : world.
Variable fuel : nat.



Lemma city_loop_no_figure (cities : list string) :
  forall (all_data : list (list MonthlyTable.row)) (st : state),
    no_figure_since st (fst (city_loop w fuel cities all_data st)).
Proof.
  induction cities as [|city cities IH]; intros all_data st; cbn [city_loop];
    [apply no_figure_refl|]. cbv zeta.
  pose proof (city_pipeline_no_figure w fuel city (emit (Print (FetchingCity city)) st))
    as Hp.
  assert (Hs : no_figure_since st (emit (Print (FetchingCity city)) st))
    by (now apply no_figure_emit).
  destruct (city_pipeline w fuel city (emit (Print (FetchingCity city)) st))
    as [st1 [df|e1|]]; cbn [fst] in *.
  - eapply no_figure_trans; [eapply no_figure_trans; eassumption | apply IH].
  - eapply no_figure_trans; [eapply no_figure_trans; eassumption |].
    eapply no_figure_trans; [|apply IH].
    now apply no_figure_emit.
  - eapply no_figure_trans; eassumption.
Qed.

(** One city costs at most three requests, in a world without silent
    statuses, and its [try] block ends. *)
Lemma city_pipeline_bounded (city : string) (st : state) :
  (forall k r, w k = GetReturns r -> silent_status (status_code r) = false) ->
  (3 <= fuel)%nat ->
  snd (city_pipeline w fuel city st) <> OutOfFuel /\
  (calls (fst (city_pipeline w fuel city st)) <= calls st + 3)%nat.
Proof.
  intros Hw Hfuel. unfold city_pipeline.
  assert (Hget : snd (get_data_meteo_api w fuel city st) <> OutOfFuel /\
                 (calls (fst (get_data_meteo_api w fuel city st)) <= calls st + 3)%nat).
  { destruct (dict_get COORDINATES city) as [coords|] eqn:Hc.
    - destruct (known_city city coords Hc) as (latitude & longitude & ->).
      rewrite (get_data_known_city w fuel city st latitude longitude Hc).
      pose proof (fetch_loop_calls_bound w API_URL (query_params latitude longitude)
                    3 1 fuel Hw 0 st) as Hb.
      pose proof (fetch_loop_terminates w API_URL (query_params latitude longitude)
                    3 1 fuel Hw 0 st) as Ht.
      unfold fetch_api_data.
      destruct (fetch_loop w API_URL (query_params latitude longitude) 3 1 fuel 0 st)
        as [st1 [body|e|]]; cbn [fst snd] in *.
      + destruct (validate_response_schema body); cbn [fst snd];
          (split; [discriminate | cbn in Hb; lia]).
      + split; [discriminate | cbn in Hb; lia].
      + exfalso. apply Ht; [cbn; lia | reflexivity].
    - unfold get_data_meteo_api. rewrite Hc. cbn [fst snd].
      split; [discriminate | lia]. }
  destruct (get_data_meteo_api w fuel city st) as [st1 [response|e|]];
    cbn [fst snd] in *.
  - destruct (process_daily_data response city); cbn [fst snd];
      (split; [discriminate | tauto]).
  - split; [discriminate | tauto].
  - destruct Hget as [Hget _]. now contradiction Hget.
Qed.

Lemma city_loop_bounded (cities : list string) :
  (forall k r, w k = GetReturns r -> silent_status (status_code r) = false) ->
  (3 <= fuel)%nat ->
  forall (all_data : list (list MonthlyTable.row)) (st : state),
    snd (city_loop w fuel cities all_data st) <> OutOfFuel /\
    (calls (fst (city_loop w fuel cities all_data st))
     <= calls st + 3 * length cities)%nat.
Proof.
  intros Hw Hfuel.
  induction cities as [|city cities IH]; intros all_data st; cbn [city_loop].
  - cbn [fst snd length]. split; [discriminate | lia].
  - cbv zeta.
    pose proof (city_pipeline_bounded city (emit (Print (FetchingCity city)) st)
                  Hw Hfuel) as [Hp Hc].
    destruct (city_pipeline w fuel city (emit (Print (FetchingCity city)) st))
      as [st1 [df|e1|]]; cbn [fst snd emit calls length] in *.
    + destruct (IH (all_data ++ [df]) st1) as [H1 H2]. split; [exact H1 | lia].
    + destruct (IH all_data (emit (Print (ErrorProcessing city e1)) st1))
        as [H1 H2].
      split; [exact H1 | cbn [emit calls] in H2; lia].
    + now contradiction Hp.
Qed.

End DriverRuns.

Lemma plot_lines_no_figure (combined_df : list MonthlyTable.row) :
  existsb is_savefig (plot_lines combined_df) = false.
Proof.
  unfold plot_lines.
  generalize (unique (map MonthlyTable.city combined_df)). intros cs.
  induction variables as [|var vars IH]; [reflexivity|].
  cbn [flat_map]. rewrite existsb_app, IH, orb_false_r. clear IH.
  induction cs as [|c cs IHc]; [reflexivity|]. cbn. exact IHc.
Qed.



(** X22.  When [main] returns, some city yielded a table, and the figure
    [weather_evolution.png] was saved exactly once: saving it and printing
    the closing line are the last two effects of the run, and no figure was
    saved before. *)
Theorem main_saves_the_figure_last
  (w : world) (fuel : nat) (st st' : state) :
  main w fuel st = (st', Return tt) ->
  every_city_fails w fuel (dict_keys COORDINATES) st = false /\
  exists t,
    trace st' = trace st ++ t ++ [Savefig "weather_evolution.png"; Print PlotSaved] /\
    existsb is_savefig t = false.
Proof.
  unfold main. cbv zeta.
  pose proof (city_loop_no_figure w fuel (dict_keys COORDINATES) [] st) as Hfig.
  destruct (city_loop w fuel (dict_keys COORDINATES) [] st)
    as [st1 [all_data|e1|]] eqn:Hloop; [|discriminate|discriminate].
  cbn [fst] in Hfig.
  destruct all_data as [|df all_data]; cbn [concat]; [discriminate|].
  intros [= <-]. split.
  - destruct (every_city_fails w fuel (dict_keys COORDINATES) st) eqn:E;
      [|reflexivity].
    destruct (city_loop_all_failed w fuel _ [] st E) as (st2 & Hl & _).
    rewrite Hloop in Hl. discriminate.
  - destruct Hfig as (t & Ht & Hq).
    exists (t ++ plot_lines (List.concat (df :: all_data))). split.
    + unfold plot_combined_data, emits. cbn [trace].
      rewrite Ht, <- !app_assoc. reflexivity.
    + rewrite existsb_app, Hq. cbn [orb]. apply plot_lines_no_figure.
Qed.

Lemma main_saves_the_figure_last_witness :
  every_city_fails (always (ok_200 madrid_response)) 1 (dict_keys COORDINATES) initial
  = false /\
  exists t,
    trace (fst (main (always (ok_200 madrid_response)) 1 initial))
    = trace initial ++ t ++ [Savefig "weather_evolution.png"; Print PlotSaved] /\
    existsb is_savefig t = false.
Proof.
  apply (main_saves_the_figure_last (always (ok_200 madrid_response)) 1 initial
           (fst (main (always (ok_200 madrid_response)) 1 initial))).
  vm_compute. reflexivity.
Defined.

(** X23.  In a world that never answers with a silent status, [main] ends
    (with the figure or with the error of the empty concatenation) and has
    issued at most nine requests, three for each city of the registry. *)
Theorem main_request_budget (w : world) (fuel : nat) (st : state) :
  (forall k r, w k = GetReturns r -> silent_status (status_code r) = false) ->
  (3 <= fuel)%nat ->
  snd (main w fuel st) <> OutOfFuel /\
  (calls (fst (main w fuel st)) <= calls st + 9)%nat.
Proof.
  intros Hw Hfuel. unfold main. cbv zeta.
  destruct (city_loop_bounded w fuel (dict_keys COORDINATES) Hw Hfuel [] st)
    as [Hend Hcalls].
  destruct (city_loop w fuel (dict_keys COORDINATES) [] st)
    as [st1 [all_data|e1|]]; cbn [fst snd] in *.
  - destruct (concat all_data); cbn [fst snd plot_combined_data emits calls];
      (split; [discriminate | cbn in Hcalls; lia]).
  - split; [discriminate | cbn in Hcalls; lia].
  - now contradiction Hend.
Qed.

Lemma main_request_budget_witness :
  snd (main (always (status_only 500)) 3 initial) <> OutOfFuel /\
  (calls (fst (main (always (status_only 500)) 3 initial)) <= calls initial + 9)%nat.
Proof.
  apply (main_request_budget (always (status_only 500)) 3 initial).
  - intros k r [= <-]. reflexivity.
  - lia.
Defined.

Lemma city_pipeline_first_200 (w : world) (fuel : nat) (city : string) (st : state)
  (latitude longitude : Q) (body : json) (df : list MonthlyTable.row) :
  dict_get COORDINATES city = Some [("latitude", latitude); ("longitude", longitude)] ->
  w (calls st) = GetReturns (mkResponse 200 None (Ok body)) ->
  validate_response_schema body = Ok tt ->
  process_daily_data body city = Ok df ->
  city_pipeline w (S fuel) city st
  = (after_request API_URL (query_params latitude longitude) [] st, Return df).
Proof.
  intros Hc Hw Hv Hp. unfold city_pipeline.
  rewrite (get_data_known_city w (S fuel) city st latitude longitude Hc).
  unfold fetch_api_data. rewrite loop_enter by lia.
  unfold iteration, try_block. rewrite Hw. cbn [status_code json_body Z.eqb Pos.eqb].
  now rewrite Hv, Hp.
Qed.

(** X24.  [main] has no guard against empty tables.  When every request is
    answered with status 200 and a body that validates but aggregates to
    the empty table (its arrays are empty), each city costs one request,
    the three empty tables are concatenated without an error, and the
    figure is saved with no line drawn in it. *)
Theorem main_saves_an_empty_figure
  (w : world) (fuel : nat) (st : state) (body : json) :
  (forall k, w k = GetReturns (mkResponse 200 None (Ok body))) ->
  validate_response_schema body = Ok tt ->
  (forall city, process_daily_data body city = Ok []) ->
  main w (S fuel) st
  = (mkState (calls st + 3)
       (trace st ++
        [ Print (FetchingCity "Madrid");
          HttpGet API_URL (query_params (40416775 # 1000000) (- (3703790 # 1000000)));
          Print (FetchingCity "London");
          HttpGet API_URL (query_params (51507351 # 1000000) (- (127758 # 1000000)));
          Print (FetchingCity "Rio");
          HttpGet API_URL (query_params (- (22906847 # 1000000))
                             (- (43172896 # 1000000)));
          Savefig "weather_evolution.png";
          Print PlotSaved ]),
     Return tt).
Proof.
  intros Hw Hv Hp. unfold main. cbv zeta.
  change (dict_keys COORDINATES) with ["Madrid"; "London"; "Rio"].
  rewrite (city_loop_succeeded w (S fuel) "Madrid" _ [] st _ []
             (city_pipeline_first_200 w fuel "Madrid" _ _ _ body []
                eq_refl (Hw _) Hv (Hp _))).
  rewrite (city_loop_succeeded w (S fuel) "London" _ _ _ _ []
             (city_pipeline_first_200 w fuel "London" _ _ _ body []
                eq_refl (Hw _) Hv (Hp _))).
  rewrite (city_loop_succeeded w (S fuel) "Rio" _ _ _ _ []
             (city_pipeline_first_200 w fuel "Rio" _ _ _ body []
                eq_refl (Hw _) Hv (Hp _))).
  cbn [city_loop app concat List.concat]. cbn [plot_combined_data].
  unfold plot_combined_data, plot_lines, emits, emit, after_request.
  cbn [calls trace map unique flat_map variables app].
  f_equal. f_equal; [lia|]. rewrite <- !app_assoc. reflexivity.
Qed.

Lemma main_saves_an_empty_figure_witness :
  main (always (ok_200 (JDict valid_response))) 1 initial
  = (mkState (calls initial + 3)
       (trace initial ++
        [ Print (FetchingCity "Madrid");
          HttpGet API_URL (query_params (40416775 # 1000000) (- (3703790 # 1000000)));
          Print (FetchingCity "London");
          HttpGet API_URL (query_params (51507351 # 1000000) (- (127758 # 1000000)));
          Print (FetchingCity "Rio");
          HttpGet API_URL (query_params (- (22906847 # 1000000))
                             (- (43172896 # 1000000)));
          Savefig "weather_evolution.png";
          Print PlotSaved ]),
     Return tt).
Proof.
  apply (main_saves_an_empty_figure (always (ok_200 (JDict valid_response))) 0
           initial (JDict valid_response));
    reflexivity.
Defined.

(* ------------------------------------------------------------------ *)
(** ** The reporter *)

Lemma unique_In (l : list string) (x : string) :
  In x (unique l) <-> In x l.
Proof.
  induction l as [|y l IH]; cbn [unique]; [tauto|].
  cbn [In]. rewrite filter_In, IH.
  destruct (String.eqb_spec y x) as [->|Hne]; cbn [negb].
  - split; [intros [H|[H1 H2]]; [now left | discriminate] | now left].
  - tauto.
Qed.

Lemma unique_NoDup (l : list string) : NoDup (unique l).
Proof.
  induction l as [|y l IH]; cbn [unique]; constructor.
  - rewrite filter_In. intros [_ H]. now rewrite String.eqb_refl in H.
  - now apply NoDup_filter.
Qed.

Lemma filter_split_length {A : Type} (p : A -> bool) (l : list A) :
  (length (filter p l) + length (filter (fun x => negb (p x)) l) = length l)%nat.
Proof.
  induction l as [|x l IH]; [reflexivity|].
  cbn [filter]. destruct (p x); cbn [negb length]; lia.
Qed.

Lemma flat_map_same {A B : Type} (f g : A -> list B) (l : list A) :
  (forall a, In a l -> f a = g a) -> flat_map f l = flat_map g l.
Proof.
  induction l as [|a l IH]; intros H; [reflexivity|].
  cbn [flat_map]. rewrite (H a) by now left.
  rewrite IH; [reflexivity|]. intros; apply H; now right.
Qed.

Lemma filter_other_city (df : list MonthlyTable.row) (c c' : string) :
  c' <> c ->
  filter (fun r => String.eqb (MonthlyTable.city r) c') df
  = filter (fun r => String.eqb (MonthlyTable.city r) c')
      (filter (fun r => negb (String.eqb (MonthlyTable.city r) c)) df).
Proof.
  intros Hne. induction df as [|r df IH]; [reflexivity|]. cbn [filter].
  destruct (String.eqb_spec (MonthlyTable.city r) c) as [Hc|Hc]; cbn [negb filter].
  - destruct (String.eqb_spec (MonthlyTable.city r) c'); [congruence | exact IH].
  - destruct (String.eqb (MonthlyTable.city r) c'); now rewrite IH.
Qed.

(** Drawing one line per city of [cs] puts every row in exactly one line,
    when the cities of [cs] are distinct and those of the table. *)
Lemma lines_partition {B : Type} (g : MonthlyTable.row -> B) (cs : list string) :
  NoDup cs ->
  forall df : list MonthlyTable.row,
    (forall r, In r df -> In (MonthlyTable.city r) cs) ->
    length (flat_map
              (fun c => map g (filter (fun r => String.eqb (MonthlyTable.city r) c) df))
              cs)
    = length df.
Proof.
  induction 1 as [|c cs Hnotin Hnodup IH]; intros df Hin.
  - destruct df as [|r df]; [reflexivity|]. destruct (Hin r); now left.
  - cbn [flat_map]. rewrite length_app, length_map.
    set (rest := filter (fun r => negb (String.eqb (MonthlyTable.city r) c)) df).
    rewrite (flat_map_same _
               (fun c' => map g (filter (fun r => String.eqb (MonthlyTable.city r) c')
                                   rest))).
    + rewrite (IH rest).
      * apply (filter_split_length (fun r => String.eqb (MonthlyTable.city r) c)).
      * intros r Hr. apply filter_In in Hr as [Hr Hne].
        destruct (Hin r Hr) as [Heq|Hcs]; [|exact Hcs].
        rewrite <- Heq, String.eqb_refl in Hne. discriminate.
    + intros c' Hc'. f_equal. unfold rest.
      apply filter_other_city. intros ->. contradiction.
Qed.

Lemma plotted_panel (panel var : string)
  (points : string -> list (date * option Q)) (cs : list string) :
  plotted_points panel (map (fun city => PlotLine var city (points city)) cs)
  = (if String.eqb var panel then flat_map points cs else []) /\
  plotted_cities panel (map (fun city => PlotLine var city (points city)) cs)
  = (if String.eqb var panel then cs else []).
Proof.
  unfold plotted_points, plotted_cities.
  induction cs as [|c cs [IH1 IH2]]; cbn [map flat_map].
  - now destruct (String.eqb var panel).
  - rewrite IH1, IH2. destruct (String.eqb var panel); now split.
Qed.

Lemma plotted_points_app (panel : string) (a b : list event) :
  plotted_points panel (a ++ b) = plotted_points panel a ++ plotted_points panel b.
Proof.
  apply flat_map_app.
Qed.

Lemma plotted_cities_app (panel : string) (a b : list event) :
  plotted_cities panel (a ++ b) = plotted_cities panel a ++ plotted_cities panel b.
Proof.
  apply flat_map_app.
Qed.

(** X25.  In each of the three panels, [plot_combined_data] draws one line
    per distinct city of the table, in the order in which the cities first
    appear, and the lines together have as many points as the table has
    rows: every row is drawn in exactly one line of each panel. *)
Theorem every_row_is_plotted_once (combined_df : list MonthlyTable.row) (panel : string) :
  In panel ["temperature"; "precipitation"; "wind_speed"] ->
  plotted_cities panel (plot_lines combined_df)
  = unique (map MonthlyTable.city combined_df) /\
  NoDup (plotted_cities panel (plot_lines combined_df)) /\
  length (plotted_points panel (plot_lines combined_df)) = length combined_df.
Proof.
  intros Hpanel.
  assert (Hpart : forall g : MonthlyTable.row -> date * option Q,
    length (flat_map
              (fun c => map g (filter (fun r => String.eqb (MonthlyTable.city r) c)
                                 combined_df))
              (unique (map MonthlyTable.city combined_df)))
    = length combined_df).
  { intros g. apply lines_partition; [apply unique_NoDup|].
    intros r Hr. apply unique_In. now apply in_map. }
  set (cs := unique (map MonthlyTable.city combined_df)) in *.
  set (points := fun (f : MonthlyTable.row -> option Q) (city : string) =>
         map (fun r => (MonthlyTable.time r, f r))
           (filter (fun r => String.eqb (MonthlyTable.city r) city) combined_df)).
  assert (Hlines : plot_lines combined_df
    = map (fun city => PlotLine "temperature" city
                         (points MonthlyTable.temperature city)) cs
      ++ map (fun city => PlotLine "precipitation" city
                            (points MonthlyTable.precipitation city)) cs
      ++ map (fun city => PlotLine "wind_speed" city
                            (points MonthlyTable.wind_speed city)) cs
      ++ []) by reflexivity.
  rewrite Hlines, !plotted_points_app, !plotted_cities_app.
  destruct (plotted_panel panel "temperature" (points MonthlyTable.temperature) cs)
    as [P1 C1].
  destruct (plotted_panel panel "precipitation" (points MonthlyTable.precipitation) cs)
    as [P2 C2].
  destruct (plotted_panel panel "wind_speed" (points MonthlyTable.wind_speed) cs)
    as [P3 C3].
  rewrite P1, P2, P3, C1, C2, C3.
  assert (Hpts : forall f, length (flat_map (points f) cs) = length combined_df)
    by (intros f; apply Hpart).
  destruct Hpanel as [<-|[<-|[<-|[]]]]; cbn [String.eqb Ascii.eqb Bool.eqb app];
    rewrite ?app_nil_r; (split; [reflexivity|]);
    (split; [apply unique_NoDup|]); apply Hpts.
Qed.

Lemma every_row_is_plotted_once_witness :
  plotted_cities "precipitation"
    (plot_lines
       [ MonthlyTable.mkRow (mkDate 2010 1 31) (Some 11%Q) (Some 5%Q) (Some 4%Q) "Madrid";
         MonthlyTable.mkRow (mkDate 2010 1 31) (Some 3%Q) (Some 9%Q) (Some 6%Q) "London";
         MonthlyTable.mkRow (mkDate 2010 2 28) (Some 12%Q) None (Some 5%Q) "Madrid" ])
  = unique ["Madrid"; "London"; "Madrid"] /\
  NoDup (plotted_cities "precipitation"
           (plot_lines
              [ MonthlyTable.mkRow (mkDate 2010 1 31) (Some 11%Q) (Some 5%Q) (Some 4%Q) "Madrid";
                MonthlyTable.mkRow (mkDate 2010 1 31) (Some 3%Q) (Some 9%Q) (Some 6%Q) "London";
                MonthlyTable.mkRow (mkDate 2010 2 28) (Some 12%Q) None (Some 5%Q) "Madrid" ])) /\
  length (plotted_points "precipitation"
            (plot_lines
               [ MonthlyTable.mkRow (mkDate 2010 1 31) (Some 11%Q) (Some 5%Q) (Some 4%Q) "Madrid";
                 MonthlyTable.mkRow (mkDate 2010 1 31) (Some 3%Q) (Some 9%Q) (Some 6%Q) "London";
                 MonthlyTable.mkRow (mkDate 2010 2 28) (Some 12%Q) None (Some 5%Q) "Madrid" ]))
  = 3%nat.
Proof.
  apply (every_row_is_plotted_once
           [ MonthlyTable.mkRow (mkDate 2010 1 31) (Some 11%Q) (Some 5%Q) (Some 4%Q) "Madrid";
             MonthlyTable.mkRow (mkDate 2010 1 31) (Some 3%Q) (Some 9%Q) (Some 6%Q) "London";
             MonthlyTable.mkRow (mkDate 2010 2 28) (Some 12%Q) None (Some 5%Q) "Madrid" ]
           "precipitation").
  right. left. reflexivity.
Defined.
